(** * generate_charts: benchmark report parser and chart renderers

    A shallow embedding of [scripts/generate_charts.py]: the line-oriented
    parser [parse_results] and the two renderers
    [generate_matplotlib_charts] and [generate_text_charts].

    Conventions of the embedding:
    - a Python [str] is a [string]; the parser is modelled on ASCII text
      (code points below 128), the written text file as its UTF-8 bytes;
    - a Python [float] is a [spec_float] of the binary64 format, with the
      operations of [SpecFloat] (round to nearest, ties to even);
    - a Python [dict] is an insertion-ordered association list;
    - an uncaught exception is the [Raise] branch of [result];
    - [main] runs in an environment record: the command line, the names
      of the files in the results directory, what each path names (nothing,
      a directory, an unreadable file, or a file with its text), and
      whether the plotting library was imported.  The output
      directory can always be created, and the results directory holds
      files only. *)

From Stdlib Require Import String Ascii List ZArith NArith Bool Lia.
From Stdlib Require Import Floats.SpecFloat DecimalString OrderedTypeEx.
Import ListNotations.

Local Open Scope string_scope.
Local Open Scope list_scope.

(** ** Exceptions and the error monad *)

Inductive exn : Type :=
| ValueError
| IndexError
| UnboundLocalError
| FileNotFoundError
| IsADirectoryError
| PermissionError
| UnicodeDecodeError
| ZeroDivisionError
| OverflowError.

Inductive result (A : Type) : Type :=
| Ok (a : A)
| Raise (e : exn).

Arguments Ok {A} a.
Arguments Raise {A} e.

Definition bind {A B : Type} (m : result A) (k : A -> result B) : result B :=
  match m with
  | Ok a => k a
  | Raise e => Raise e
  end.

Notation "x <- m ;; k" := (bind m (fun x => k))
  (at level 61, m at next level, right associativity).

(** [xs[i]]: an [IndexError] out of range. *)
Definition index {A : Type} (xs : list A) (i : nat) : result A :=
  match nth_error xs i with
  | Some a => Ok a
  | None => Raise IndexError
  end.

(** ** Python string operations *)

Module Str.

(** [str.isspace] on ASCII: tab to carriage return, the four separators
    0x1c-0x1f and the blank. *)
Definition is_space (c : ascii) : bool :=
  let n := nat_of_ascii c in
  ((9 <=? n) && (n <=? 13) || (28 <=? n) && (n <=? 32))%nat.

Definition is_digit (c : ascii) : bool :=
  let n := nat_of_ascii c in ((48 <=? n) && (n <=? 57))%nat.

(** [\w] of [re] on ASCII: letters, digits and the underscore. *)
Definition is_word (c : ascii) : bool :=
  let n := nat_of_ascii c in
  ((48 <=? n) && (n <=? 57) || (65 <=? n) && (n <=? 90)
   || (97 <=? n) && (n <=? 122) || (n =? 95))%nat.

Fixpoint lstrip (s : string) : string :=
  match s with
  | String c s' => if is_space c then lstrip s' else s
  | EmptyString => EmptyString
  end.

Fixpoint rstrip (s : string) : string :=
  match s with
  | String c s' =>
      match rstrip s' with
      | EmptyString => if is_space c then EmptyString else String c EmptyString
      | r => String c r
      end
  | EmptyString => EmptyString
  end.

(** [s.strip()] *)
Definition strip (s : string) : string := rstrip (lstrip s).

(** [s.startswith(p)] *)
Fixpoint startswith (p s : string) : bool :=
  match p, s with
  | EmptyString, _ => true
  | String a p', String b s' => Ascii.eqb a b && startswith p' s'
  | String _ _, EmptyString => false
  end.

(** [sub in s] *)
Fixpoint contains (sub s : string) : bool :=
  startswith sub s ||
  match s with
  | String _ s' => contains sub s'
  | EmptyString => false
  end.

Fixpoint rev_acc (acc s : string) : string :=
  match s with
  | String c s' => rev_acc (String c acc) s'
  | EmptyString => acc
  end.

(** The pieces of [s] around the occurrences of [sep], scanned left to
    right without overlap; [budget] is the number of cuts still allowed,
    [skip] the number of characters of a separator still to pass over,
    [cur] the current piece, reversed. *)
Fixpoint split_from (sep : string) (budget : option nat) (skip : nat)
         (cur s : string) : list string :=
  match s with
  | EmptyString => [rev_acc EmptyString cur]
  | String c s' =>
      match skip with
      | S k => split_from sep budget k cur s'
      | O =>
          let cut := match budget with Some O => false | _ => true end in
          if cut && startswith sep s
          then rev_acc EmptyString cur ::
               split_from sep (option_map Nat.pred budget)
                          (Nat.pred (String.length sep)) EmptyString s'
          else split_from sep budget O (String c cur) s'
      end
  end.

(** [s.split(sep)] for a non-empty [sep] *)
Definition split (sep s : string) : list string :=
  split_from sep None O EmptyString s.

(** [s.split(sep, maxsplit)] for a non-empty [sep] *)
Definition split_max (sep : string) (maxsplit : nat) (s : string) : list string :=
  split_from sep (Some maxsplit) O EmptyString s.

(** [s.split()]: the maximal runs of non-blank characters. *)
Fixpoint words_from (cur s : string) : list string :=
  match s with
  | EmptyString =>
      match cur with
      | EmptyString => []
      | _ => [rev_acc EmptyString cur]
      end
  | String c s' =>
      if is_space c
      then match cur with
           | EmptyString => words_from EmptyString s'
           | _ => rev_acc EmptyString cur :: words_from EmptyString s'
           end
      else words_from (String c cur) s'
  end.

Definition words (s : string) : list string := words_from EmptyString s.

(** The longest prefix of word characters. *)
Fixpoint take_word (s : string) : string :=
  match s with
  | String c s' => if is_word c then String c (take_word s') else EmptyString
  | EmptyString => EmptyString
  end.

Fixpoint drop (n : nat) (s : string) : string :=
  match n, s with
  | S k, String _ s' => drop k s'
  | _, _ => s
  end.

(** [s * n]: negative counts give the empty string. *)
Definition repeat (s : string) (n : Z) : string :=
  Nat.iter (Z.to_nat n) (append s) EmptyString.

(** [format(s, str(w))]: left-justified in [w] columns; [len] is the
    number of code points of [s]. *)
Definition ljust (s : string) (len w : nat) : string :=
  s ++ repeat " " (Z.of_nat (w - len)).

End Str.

(** [re.match(r"Test: (\w+)", line)], returning [match.group(1)]. *)
Definition match_test (line : string) : option string :=
  if Str.startswith "Test: " line
  then match Str.take_word (Str.drop 6 line) with
       | EmptyString => None
       | w => Some w
       end
  else None.

(** ** Python floats: binary64 *)

Module Float.

Definition float : Type := spec_float.

Definition prec : Z := 53.
Definition emax : Z := 1024.

(** [float(n)] for an [int] [n] *)
Definition of_Z (n : Z) : float := binary_normalize prec emax n 0 false.

Definition mul : float -> float -> float := SFmul prec emax.

(** The quotient of two floats, where the divisor is known not to be zero. *)
Definition quot : float -> float -> float := SFdiv prec emax.

Definition ltb : float -> float -> bool := SFltb.
Definition eqb : float -> float -> bool := SFeqb.

(** [x > 0] *)
Definition pos (x : float) : bool := ltb (S754_zero false) x.

(** [x == 0] *)
Definition is_zero (x : float) : bool :=
  match x with
  | S754_zero _ => true
  | _ => false
  end.

Definition is_finite (x : float) : bool :=
  match x with
  | S754_zero _ | S754_finite _ _ _ => true
  | _ => false
  end.

(** [x / y]: Python raises on a zero divisor instead of returning an
    infinity or a NaN. *)
Definition div (x y : float) : result float :=
  if is_zero y then Raise ZeroDivisionError else Ok (quot x y).

(** [int(x)]: truncation towards zero. *)
Definition to_int (x : float) : result Z :=
  match x with
  | S754_nan => Raise ValueError
  | S754_infinity _ => Raise OverflowError
  | S754_zero _ => Ok 0%Z
  | S754_finite s m e =>
      Ok (cond_Zopp s (match e with
                       | Zneg k => Z.shiftr (Zpos m) (Zpos k)
                       | _ => Z.shiftl (Zpos m) e
                       end))
  end.

(** The float nearest to [m * 10 ^ e10] (ties to even). *)
Definition of_decimal (neg : bool) (m : N) (e10 : Z) : float :=
  match m with
  | N0 => S754_zero neg
  | Npos p =>
      match e10 with
      | Zneg k =>
          let '(q, e, l) :=
            SFdiv_core_binary prec emax (Zpos p) 0 (Z.pow_pos 10 k) 0 in
          binary_round_aux prec emax neg q e l
      | _ => binary_normalize prec emax (cond_Zopp neg (Zpos p * 10 ^ e10)) 0 neg
      end
  end.

Definition lower (c : ascii) : ascii :=
  let n := nat_of_ascii c in
  if ((65 <=? n) && (n <=? 90))%nat then ascii_of_nat (n + 32) else c.

Fixpoint lower_str (s : string) : string :=
  match s with
  | String c s' => String (lower c) (lower_str s')
  | EmptyString => EmptyString
  end.

Definition digit_val (c : ascii) : N := N.of_nat (nat_of_ascii c - 48).

(** The rest of a [digitpart], after a digit: [(["_"] digit)*].  Returns
    the number read so far, the count of digits and the unread text. *)
Fixpoint digits_from (acc : N) (n : nat) (s : string) : N * nat * string :=
  match s with
  | String c s' =>
      if Str.is_digit c then digits_from (10 * acc + digit_val c) (S n) s'
      else if Ascii.eqb c "_"
      then match s' with
           | String c2 s'' =>
               if Str.is_digit c2
               then digits_from (10 * acc + digit_val c2) (S n) s''
               else (acc, n, s)
           | EmptyString => (acc, n, s)
           end
      else (acc, n, s)
  | EmptyString => (acc, n, s)
  end.

(** [digitpart ::= digit (["_"] digit)*], continuing the number [acc]. *)
Definition digitpart (acc : N) (s : string) : option (N * nat * string) :=
  match s with
  | String c s' =>
      if Str.is_digit c then Some (digits_from (10 * acc + digit_val c) 1 s')
      else None
  | EmptyString => None
  end.

(** [number ::= [digitpart] "." digitpart | digitpart ["."]]: the digits
    as one integer, the count of digits after the point, the unread text. *)
Definition number (s : string) : option (N * nat * string) :=
  match s with
  | String "." s' => digitpart 0 s'
  | _ =>
      match digitpart 0 s with
      | Some (i, _, String "." r) =>
          match digitpart i r with
          | Some res => Some res
          | None => Some (i, O, r)
          end
      | Some (i, _, r) => Some (i, O, r)
      | None => None
      end
  end.

Definition sign (s : string) : bool * string :=
  match s with
  | String "-" s' => (true, s')
  | String "+" s' => (false, s')
  | _ => (false, s)
  end.

(** [exponent ::= ("e" | "E") [sign] digitpart], up to the end of the
    text; no exponent is exponent zero. *)
Definition exponent (s : string) : option Z :=
  match s with
  | EmptyString => Some 0%Z
  | String c s' =>
      if Ascii.eqb (lower c) "e"
      then let '(neg, r) := sign s' in
           match digitpart 0 r with
           | Some (e, _, EmptyString) => Some (cond_Zopp neg (Z.of_N e))
           | _ => None
           end
      else None
  end.

(** [float(s)] for a token [s] without blanks; [None] is a [ValueError]. *)
Definition of_string (s : string) : option float :=
  let '(neg, r) := sign s in
  let w := lower_str r in
  if String.eqb w "inf" || String.eqb w "infinity" then Some (S754_infinity neg)
  else if String.eqb w "nan" then Some S754_nan
  else
    match number r with
    | Some (m, k, r') =>
        match exponent r' with
        | Some e => Some (of_decimal neg m (e - Z.of_nat k))
        | None => None
        end
    | None => None
    end.

Definition Z_to_string (n : Z) : string :=
  DecimalString.NilZero.string_of_uint (N.to_uint (Z.to_N n)).

(** The integer nearest to [10 * m * 2 ^ e], ties to even. *)
Definition tenths (m : positive) (e : Z) : Z :=
  match e with
  | Zneg k =>
      let d := Z.pow_pos 2 k in
      let (q, r) := Z.div_eucl (10 * Zpos m) d in
      match (2 * r ?= d)%Z with
      | Lt => q
      | Gt => (q + 1)%Z
      | Eq => if Z.even q then q else (q + 1)%Z
      end
  | _ => (10 * Zpos m * 2 ^ e)%Z
  end.

(** [format(x, ".1f")] *)
Definition format_1f (x : float) : string :=
  match x with
  | S754_nan => "nan"
  | S754_infinity s => if s then "-inf" else "inf"
  | S754_zero s => if s then "-0.0" else "0.0"
  | S754_finite s m e =>
      let t := tenths m e in
      (if s then "-" else "") ++ Z_to_string (t / 10) ++ "." ++ Z_to_string (t mod 10)
  end.

(** [max(xs)] for a non-empty [xs]: the first of the largest items. *)
Definition max (xs : list float) : option float :=
  match xs with
  | [] => None
  | x :: rest => Some (fold_left (fun m y => if ltb m y then y else m) rest x)
  end.

End Float.

(** ** Python dicts: insertion-ordered association lists *)

Module Dict.

Definition dict (V : Type) : Type := list (string * V).

(** [d.get(k)] *)
Fixpoint get {V : Type} (k : string) (d : dict V) : option V :=
  match d with
  | [] => None
  | (k', v) :: d' => if String.eqb k' k then Some v else get k d'
  end.

(** [k in d] *)
Definition mem {V : Type} (k : string) (d : dict V) : bool :=
  match get k d with
  | Some _ => true
  | None => false
  end.

(** [d[k] = v]: an existing key keeps its place, a new one goes last. *)
Fixpoint set {V : Type} (k : string) (v : V) (d : dict V) : dict V :=
  match d with
  | [] => [(k, v)]
  | (k', v') :: d' =>
      if String.eqb k' k then (k', v) :: d' else (k', v') :: set k v d'
  end.

Definition keys {V : Type} (d : dict V) : list string := map fst d.
Definition values {V : Type} (d : dict V) : list V := map snd d.

(** The truth value of a dict: it is not empty. *)
Definition nonempty {V : Type} (d : dict V) : bool :=
  match d with
  | [] => false
  | _ => true
  end.

End Dict.

Abbreviation dict := Dict.dict.
Abbreviation float := Float.float.

(** ** The Report *)

(** [results]: [correction] is the entry ["corrections"] of
    [results["correction"]], [None] while that key is absent. *)
Record Report : Type := mkReport {
  startup : dict float;
  correction : option (dict (dict float));
  memory : dict float;
  metadata : dict string
}.

Definition empty_report : Report :=
  {| startup := []; correction := None; memory := []; metadata := [] |}.

(** ** The parser *)

Inductive section : Type := Startup | Correction | Memory.

(** The local variables of [parse_results] during the loop;
    [current_test] is [None] while the variable is unbound. *)
Record state : Type := mkState {
  results : Report;
  current_section : option section;
  current_test : option string
}.

Definition init : state :=
  {| results := empty_report; current_section := None; current_test := None |}.

Definition set_metadata (k v : string) (st : state) : state :=
  let r := results st in
  {| results := {| startup := startup r; correction := correction r;
                   memory := memory r;
                   metadata := Dict.set k v (metadata r) |};
     current_section := current_section st;
     current_test := current_test st |}.

Definition set_section (sec : section) (st : state) : state :=
  {| results := results st; current_section := Some sec;
     current_test := current_test st |}.

Definition set_test (t : string) (st : state) : state :=
  {| results := results st; current_section := current_section st;
     current_test := Some t |}.

Definition set_startup (k : string) (v : float) (st : state) : state :=
  let r := results st in
  {| results := {| startup := Dict.set k v (startup r);
                   correction := correction r; memory := memory r;
                   metadata := metadata r |};
     current_section := current_section st;
     current_test := current_test st |}.

Definition set_memory (k : string) (v : float) (st : state) : state :=
  let r := results st in
  {| results := {| startup := startup r; correction := correction r;
                   memory := Dict.set k v (memory r);
                   metadata := metadata r |};
     current_section := current_section st;
     current_test := current_test st |}.

(** [corrections.setdefault(t, {})[k] = v] *)
Definition set_inner (t k : string) (v : float) (c : dict (dict float))
  : dict (dict float) :=
  let inner := match Dict.get t c with Some d => d | None => [] end in
  Dict.set t (Dict.set k v inner) c.

Definition set_correction (t k : string) (v : float) (st : state) : state :=
  let r := results st in
  let c := match correction r with Some c => c | None => [] end in
  {| results := {| startup := startup r;
                   correction := Some (set_inner t k v c);
                   memory := memory r; metadata := metadata r |};
     current_section := current_section st;
     current_test := current_test st |}.

(** [float(value)] *)
Definition py_float (value : string) : result float :=
  match Float.of_string value with
  | Some v => Ok v
  | None => Raise ValueError
  end.

(** The read of the local [current_test]. *)
Definition read_test (st : state) : result string :=
  match current_test st with
  | Some t => Ok t
  | None => Raise UnboundLocalError
  end.

(** Lines 62-64 (and 72-74, 79-81, 84-86): the right-hand side
    [float(value)] is evaluated before the target, whose evaluation reads
    [current_test]. *)
Definition store_correction (k value : string) (st : state) : result state :=
  v <- py_float value ;;
  t <- read_test st ;;
  Ok (set_correction t k v st).

(** [line.split(":")[1].strip().split()[0]] *)
Definition anchored_value (line : string) : result string :=
  p <- index (Str.split ":" line) 1 ;;
  index (Str.words (Str.strip p)) 0.

(** [line.split(label)[1].strip().split()[0]] for [label] one of
    ["Rust:"] and ["Python:"] *)
Definition inline_value (label line : string) : result string :=
  p <- index (Str.split label line) 1 ;;
  index (Str.words (Str.strip p)) 0.

(** Lines 58-66 and 68-76: a label at the start of the line. *)
Definition store_anchored (sec : section) (k line : string) (st : state)
  : result state :=
  value <- anchored_value line ;;
  match sec with
  | Startup => v <- py_float value ;; Ok (set_startup k v st)
  | Correction => store_correction k value st
  | Memory => v <- py_float value ;; Ok (set_memory k v st)
  end.

(** Lines 78-81 and 83-86: a label further in the line. *)
Definition store_inline (label k line : string) (st : state) : result state :=
  value <- inline_value label line ;;
  store_correction k value st.

(** Lines 57-86: the body of [elif current_section:]. *)
Definition timing_line (sec : section) (line : string) (st : state)
  : result state :=
  if Str.startswith "Rust:" line then store_anchored sec "rust" line st
  else if Str.startswith "Python:" line then store_anchored sec "python" line st
  else if Str.contains "Rust:" line then store_inline "Rust:" "rust" line st
  else if Str.contains "Python:" line then store_inline "Python:" "python" line st
  else Ok st.

(** Lines 40-86: the body of the loop over the lines. *)
Definition step (st : state) (raw : string) : result state :=
  let line := Str.strip raw in
  if Str.startswith "Date:" line then
    v <- index (Str.split_max ":" 1 line) 1 ;;
    Ok (set_metadata "date" (Str.strip v) st)
  else if Str.startswith "Iterations:" line then
    v <- index (Str.split_max ":" 1 line) 1 ;;
    Ok (set_metadata "iterations" (Str.strip v) st)
  else if String.eqb line "STARTUP TIME" then Ok (set_section Startup st)
  else if String.eqb line "CORRECTION TIME" then Ok (set_section Correction st)
  else if String.eqb line "MEMORY USAGE" then Ok (set_section Memory st)
  else if Str.startswith "Test:" line then
    match match_test line with
    | Some t => Ok (set_test t st)
    | None => Ok st
    end
  else
    match current_section st with
    | Some sec => timing_line sec line st
    | None => Ok st
    end.

(** The loop of lines 39-86, from any state. *)
Fixpoint run (st : state) (lines : list string) : result state :=
  match lines with
  | [] => Ok st
  | l :: rest => st' <- step st l ;; run st' rest
  end.

(** [parse_results] after the file has been read. *)
Definition parse_lines (lines : list string) : result Report :=
  st <- run init lines ;; Ok (results st).

(** [f.readlines()] in text mode: a line ends after a line feed, a
    carriage return or the pair of them, each read as one line feed. *)
Fixpoint readlines_from (cur text : string) : list string :=
  match text with
  | EmptyString =>
      match cur with
      | EmptyString => []
      | _ => [Str.rev_acc EmptyString cur]
      end
  | String c t =>
      if Ascii.eqb c "010"%char
      then Str.rev_acc EmptyString (String "010"%char cur) :: readlines_from EmptyString t
      else if Ascii.eqb c "013"%char
      then Str.rev_acc EmptyString (String "010"%char cur) ::
           match t with
           | String c2 t2 =>
               if Ascii.eqb c2 "010"%char then readlines_from EmptyString t2
               else readlines_from EmptyString t
           | EmptyString => []
           end
      else readlines_from (String c cur) t
  end.

Definition readlines (text : string) : list string :=
  readlines_from EmptyString text.

(** What a path names, as far as lines 36-37 can tell: nothing, a
    directory, a file that may not be read, or a file that can be opened,
    with its decoded text ([None] when the encoding rejects its bytes). *)
Inductive node : Type :=
| Absent
| Folder
| Protected
| Regular (text : option string).

Definition filesystem : Type := string -> node.

(** [open(filepath, 'r')] *)
Definition open (fs : filesystem) (filepath : string) : result (option string) :=
  match fs filepath with
  | Absent => Raise FileNotFoundError
  | Folder => Raise IsADirectoryError
  | Protected => Raise PermissionError
  | Regular text => Ok text
  end.

(** [f.readlines()] on the open file. *)
Definition read (f : option string) : result (list string) :=
  match f with
  | Some text => Ok (readlines text)
  | None => Raise UnicodeDecodeError
  end.

Definition parse_results (fs : filesystem) (filepath : string) : result Report :=
  f <- open fs filepath ;;
  lines <- read f ;;
  parse_lines lines.

(** ** Effects of the renderers

    A renderer acts on a world [W] (the pyplot state, or the open text
    file) and may raise; what it did before raising stays done. *)

Definition io (W A : Type) : Type := W -> W * result A.

Definition ret {W A : Type} (a : A) : io W A := fun w => (w, Ok a).

Definition iobind {W A B : Type} (m : io W A) (k : A -> io W B) : io W B :=
  fun w =>
    match m w with
    | (w', Ok a) => k a w'
    | (w', Raise e) => (w', Raise e)
    end.

Definition lift {W A : Type} (m : result A) : io W A := fun w => (w, m).

Notation "x <~ m ;; k" := (iobind m (fun x => k))
  (at level 61, m at next level, right associativity).
Notation "m >> k" := (iobind m (fun _ => k))
  (at level 61, right associativity).

(** [if c: body] *)
Definition when {W : Type} (c : bool) (body : io W unit) : io W unit :=
  if c then body else ret tt.

(** [for x in xs: body] *)
Fixpoint for_each {W A : Type} (xs : list A) (body : A -> io W unit) : io W unit :=
  match xs with
  | [] => ret tt
  | x :: rest => body x >> for_each rest body
  end.

Definition nl : string := String "010"%char EmptyString.

Definition f1000 : float := Eval vm_compute in Float.of_Z 1000.

(** [d["rust"]], [d["python"]] after a successful [in] test: a missing
    key would be a [KeyError], which no caller below can reach. *)
Definition item (k : string) (d : dict float) : float :=
  match Dict.get k d with
  | Some v => v
  | None => S754_nan
  end.

(** ** The graphical renderer *)

Module Plt.

(** The calls on the axes that carry data; positions, fonts and sizes
    are left out.  The plotting library is taken to accept every call on
    finite numbers; of its checks on the others, that of [set_ylim] is
    modelled. *)
Inductive draw : Type :=
| Bar (x : list string) (height : list float) (color : list string)
| BarGroup (height : list float) (label color : string)
| Annotate (text : string)
| SetXLabel (s : string)
| SetYLabel (s : string)
| SetTitle (s : string)
| SetYLim (top : float)
| SetXTicksRange (n : nat)
| SetXTicks (x : list float)
| SetXTickLabels (labels : list string)
| Legend
| Plot (x y : list float)
| Fill (x y : list float)
| AxHLine (y : float).

(** The current axes, and the image files written so far with the
    content of each. *)
Record world : Type := mkWorld {
  axes : list draw;
  files : list (string * list draw)
}.

Definition start : world := {| axes := []; files := [] |}.

(** [plt.subplots(...)] *)
Definition subplots : io world unit :=
  fun w => ({| axes := []; files := files w |}, Ok tt).

Definition call (d : draw) : io world unit :=
  fun w => ({| axes := axes w ++ [d]; files := files w |}, Ok tt).

(** [plt.savefig(os.path.join(output_dir, name))] *)
Definition savefig (name : string) : io world unit :=
  fun w => ({| axes := axes w; files := files w ++ [(name, axes w)] |}, Ok tt).

(** [ax.set_ylim(0, top)]: the library refuses, with a [ValueError], a
    limit that is infinite or not a number. *)
Definition set_ylim (top : float) : io world unit :=
  if Float.is_finite top then call (SetYLim top) else lift (Raise ValueError).

End Plt.

Import Plt.

Definition rust_color : string := "#DEA584".
Definition python_color : string := "#3776AB".

Definition rust_lang : string := ("Rust" ++ nl ++ "(thefuck-rs)")%string.
Definition python_lang : string := ("Python" ++ nl ++ "(thefuck)")%string.

(** [max(xs)]: a [ValueError] on an empty list. *)
Definition py_max (xs : list float) : result float :=
  match Float.max xs with
  | Some m => Ok m
  | None => Raise ValueError
  end.

(** The three parallel lists built by lines 103-115 and 193-205;
    [scale] is the conversion applied to each value. *)
Definition lang_bars (scale : float -> float) (d : dict float)
  : list string * list float * list string :=
  let r := if Dict.mem "rust" d
           then ([rust_lang], [scale (item "rust" d)], [rust_color])
           else ([], [], []) in
  let '(l1, t1, c1) := r in
  if Dict.mem "python" d
  then (l1 ++ [python_lang], t1 ++ [scale (item "python" d)],
        c1 ++ [python_color])
  else r.

(** Lines 131-138 and 221-228: the callout with the ratio of the two
    bars. *)
Definition callout (values : list float) (suffix : string) : io world unit :=
  match values with
  | [a; b] =>
      when (Float.pos a)
        (ratio <~ lift (Float.div b a) ;;
         call (Annotate (Float.format_1f ratio ++ suffix)%string))
  | _ => ret tt
  end.

(** Lines 99-142. *)
Definition startup_chart (r : Report) : io world unit :=
  subplots >>
  when (Dict.nonempty (startup r))
    (let '(langs, times, colors) :=
       lang_bars (fun v => Float.quot v f1000) (startup r) in
     call (Bar langs times colors) >>
     for_each times (fun time => call (Annotate (Float.format_1f time ++ " ms")%string)) >>
     call (SetYLabel "Time (milliseconds)") >>
     call (SetTitle "Startup Time Comparison") >>
     (top <~ lift (py_max times) ;;
      set_ylim (Float.mul top (Float.of_decimal false 12 (-1))) >>
      callout times "x faster")) >>
  savefig "startup_time.png".

(** [results["correction"].get("corrections")] is true: the key is
    there and its dict is not empty. *)
Definition corrections_of (r : Report) : dict (dict float) :=
  match correction r with
  | Some c => c
  | None => []
  end.

(** [corrections[t].get(k, 0) / 1000] *)
Definition get_ms (k : string) (data : dict float) : float :=
  Float.quot (match Dict.get k data with
              | Some v => v
              | None => S754_zero false
              end) f1000.

Definition label_bars (heights : list float) : io world unit :=
  for_each heights (fun height =>
    when (Float.pos height) (call (Annotate (Float.format_1f height)))).

(** Lines 144-187. *)
Definition correction_chart (r : Report) : io world unit :=
  let corrections := corrections_of r in
  when (Dict.nonempty corrections)
    (subplots >>
     let tests := Dict.keys corrections in
     let rust_times := map (get_ms "rust") (Dict.values corrections) in
     let python_times := map (get_ms "python") (Dict.values corrections) in
     call (BarGroup rust_times "Rust (thefuck-rs)" rust_color) >>
     call (BarGroup python_times "Python (thefuck)" python_color) >>
     label_bars rust_times >>
     label_bars python_times >>
     call (SetXLabel "Test Case") >>
     call (SetYLabel "Time (milliseconds)") >>
     call (SetTitle "Correction Time by Test Case") >>
     call (SetXTicksRange (List.length tests)) >>
     call (SetXTickLabels tests) >>
     call Legend >>
     savefig "correction_time.png").

(** Lines 189-232. *)
Definition memory_chart (r : Report) : io world unit :=
  when (Dict.nonempty (memory r))
    (subplots >>
     let '(langs, mem, colors) := lang_bars (fun v => v) (memory r) in
     call (Bar langs mem colors) >>
     for_each mem (fun m => call (Annotate (Float.format_1f m ++ " MB")%string)) >>
     call (SetYLabel "Peak Memory (MB)") >>
     call (SetTitle "Memory Usage Comparison") >>
     (top <~ lift (py_max mem) ;;
      set_ylim (Float.mul top (Float.of_decimal false 12 (-1))) >>
      callout mem "x less memory") >>
     savefig "memory_usage.png").

(** [k in d and ...]: both implementations have a value in [d]. *)
Definition both (d : dict float) : bool :=
  Dict.mem "rust" d && Dict.mem "python" d.

(** [d["python"] / d["rust"]] *)
Definition ratio (d : dict float) : result float :=
  Float.div (item "python" d) (item "rust" d).

(** Lines 246-249: the axes of the test cases. *)
Fixpoint correction_axes (c : dict (dict float))
  : result (list string * list float) :=
  match c with
  | [] => Ok ([], [])
  | (test, data) :: rest =>
      if both data && Float.pos (item "rust" data)
      then s <- ratio data ;;
           r <- correction_axes rest ;;
           Ok ((("Correction" ++ nl ++ "(" ++ test ++ ")")%string :: fst r), s :: snd r)
      else correction_axes rest
  end.

(** Lines 238-253: [categories] and [speedups]. *)
Definition radar_axes (r : Report) : result (list string * list float) :=
  a1 <- (if both (startup r)
         then s <- ratio (startup r) ;; Ok (["Startup"], [s])
         else Ok ([], [])) ;;
  a2 <- (if Dict.nonempty (corrections_of r)
         then correction_axes (corrections_of r)
         else Ok ([], [])) ;;
  a3 <- (if both (memory r) && Float.pos (item "rust" (memory r))
         then s <- ratio (memory r) ;;
              Ok ([("Memory" ++ nl ++ "(lower is better)")%string], [s])
         else Ok ([], [])) ;;
  Ok (fst a1 ++ fst a2 ++ fst a3, snd a1 ++ snd a2 ++ snd a3).

(** Line 257: [n / float(len(categories)) * 2 * 3.14159] for [n] in
    [range(len(categories))]. *)
Definition angles_of (len : nat) : list float :=
  map (fun n =>
         Float.mul
           (Float.mul (Float.quot (Float.of_Z (Z.of_nat n)) (Float.of_Z (Z.of_nat len)))
                      (Float.of_Z 2))
           (Float.of_decimal false 314159 (-5)))
      (seq 0 len).

(** Lines 234-273. *)
Definition summary_chart (r : Report) : io world unit :=
  subplots >>
  (a <~ lift (radar_axes r) ;;
   let '(categories, speedups) := a in
   when (match categories with [] => false | _ => true end)
     (let angles := angles_of (List.length categories) in
      let angles' := angles ++ firstn 1 angles in
      let speedups' := speedups ++ firstn 1 speedups in
      call (Plot angles' speedups') >>
      call (Fill angles' speedups') >>
      call (SetXTicks (removelast angles')) >>
      call (SetXTickLabels categories) >>
      call (SetTitle "Rust Performance Improvement (x times faster/smaller)") >>
      call (AxHLine (Float.of_Z 1)) >>
      savefig "summary_radar.png")).

(** [generate_matplotlib_charts(results, output_dir)]: the files are the
    ones written into [output_dir]. *)
Definition generate_matplotlib_charts (r : Report) : io world unit :=
  startup_chart r >>
  correction_chart r >>
  memory_chart r >>
  summary_chart r.

(** The names of the image files in the output directory afterwards, and
    the exception that ended the renderer, if any. *)
Definition charts_written (r : Report) : list string :=
  map fst (files (fst (generate_matplotlib_charts r start))).

Definition chart_content (name : string) (r : Report) : option (list draw) :=
  option_map snd
    (find (fun f => String.eqb (fst f) name)
          (files (fst (generate_matplotlib_charts r start)))).

(** ** The text renderer *)

Module Txt.

(** The text written to [charts.txt] so far, as UTF-8. *)
Definition world : Type := string.

(** [f.write(s)] *)
Definition write (s : string) : io world unit :=
  fun w => ((w ++ s)%string, Ok tt).

(** U+2588, the full block, and U+2192, the arrow. *)
Definition block : string :=
  String (ascii_of_nat 226) (String (ascii_of_nat 150) (String (ascii_of_nat 136) EmptyString)).
Definition arrow : string :=
  String (ascii_of_nat 226) (String (ascii_of_nat 134) (String (ascii_of_nat 146) EmptyString)).

End Txt.

Import Txt.

(** [int(time / max_time * width) if max_time > 0 else 0] *)
Definition bar_len (width : Z) (time max_time : float) : result Z :=
  if Float.pos max_time
  then q <- Float.div time max_time ;;
       Float.to_int (Float.mul q (Float.of_Z width))
  else Ok 0%Z.

(** [f"{bar:w}"] for [bar = block * n] *)
Definition bar_field (n : Z) (w : nat) : string :=
  Str.ljust (Str.repeat block n) (Z.to_nat n) w.

(** Lines 294-296, 312-314 and 328-330: the row of one implementation. *)
Definition row (indent : string) (width : nat) (shown : float -> string)
           (unit_ : string) (max_time : float) (kv : string * float)
  : io Txt.world unit :=
  let '(lang, time) := kv in
  n <~ lift (bar_len (Z.of_nat width) time max_time) ;;
  write (indent ++ Str.ljust lang (String.length lang) 8 ++ " "
         ++ bar_field n width ++ " " ++ shown time ++ unit_ ++ nl)%string.

(** Lines 293-296, 311-314 and 327-330: the rows of one mapping. *)
Definition rows (indent : string) (width : nat) (shown : float -> string)
           (unit_ : string) (max_time : float) (d : dict float)
  : io Txt.world unit :=
  for_each d (row indent width shown unit_ max_time).

Definition ms (time : float) : string := Float.format_1f (Float.quot time f1000).

(** Lines 288-302. *)
Definition startup_text (r : Report) : io Txt.world unit :=
  write ("STARTUP TIME (lower is better)" ++ nl)%string >>
  write (Str.repeat "-" 40 ++ nl)%string >>
  when (Dict.nonempty (startup r))
    (max_time <~ lift (py_max (Dict.values (startup r))) ;;
     rows "" 30 ms " ms" max_time (startup r) >>
     when (both (startup r))
       (speedup <~ lift (ratio (startup r)) ;;
        write (nl ++ arrow ++ " Rust is " ++ Float.format_1f speedup
               ++ "x faster" ++ nl)%string)) >>
  write nl.

(** Lines 308-318: one test case. *)
Definition correction_block (test : string) (data : dict float)
  : io Txt.world unit :=
  write (nl ++ test ++ ":" ++ nl)%string >>
  (max_time <~ lift (if Dict.nonempty data then py_max (Dict.values data)
                     else Ok (Float.of_Z 1)) ;;
   rows "  " 25 ms " ms" max_time data >>
   when (both data && Float.pos (item "rust" data))
     (speedup <~ lift (ratio data) ;;
      write ("  " ++ arrow ++ " Rust is " ++ Float.format_1f speedup
             ++ "x faster" ++ nl)%string)).

(** Lines 304-320. *)
Definition correction_text (r : Report) : io Txt.world unit :=
  write ("CORRECTION TIME (lower is better)" ++ nl)%string >>
  write (Str.repeat "-" 40 ++ nl)%string >>
  when (Dict.nonempty (corrections_of r))
    (for_each (corrections_of r) (fun td => correction_block (fst td) (snd td))) >>
  write nl.

(** Lines 322-334. *)
Definition memory_text (r : Report) : io Txt.world unit :=
  write ("MEMORY USAGE (lower is better)" ++ nl)%string >>
  write (Str.repeat "-" 40 ++ nl)%string >>
  when (Dict.nonempty (memory r))
    (max_mem <~ lift (py_max (Dict.values (memory r))) ;;
     rows "" 30 Float.format_1f " MB" max_mem (memory r) >>
     when (both (memory r))
       (ratio <~ lift (ratio (memory r)) ;;
        write (nl ++ arrow ++ " Rust uses " ++ Float.format_1f ratio
               ++ "x less memory" ++ nl)%string)).

(** [generate_text_charts(results, output_dir)]: the world is the
    content of [charts.txt]. *)
Definition generate_text_charts (r : Report) : io Txt.world unit :=
  write (Str.repeat "=" 60 ++ nl)%string >>
  write ("       TheFuck Performance Comparison Charts" ++ nl)%string >>
  write (Str.repeat "=" 60 ++ nl ++ nl)%string >>
  startup_text r >>
  correction_text r >>
  memory_text r >>
  write (nl ++ Str.repeat "=" 60 ++ nl)%string.

(** ** The entry point *)














(** * Vocabulary of the statements *)

(** The line passes rules 1 to 4 (lines 42-55) untouched and reaches
    [elif current_section:]. *)
Definition falls_through (line : string) : bool :=
  negb (Str.startswith "Date:" line)
  && negb (Str.startswith "Iterations:" line)
  && negb (String.eqb line "STARTUP TIME")
  && negb (String.eqb line "CORRECTION TIME")
  && negb (String.eqb line "MEMORY USAGE")
  && negb (Str.startswith "Test:" line).

(** The key under which a label at the start of the line is stored. *)
Definition anchored_key (line : string) : option string :=
  if Str.startswith "Rust:" line then Some "rust"
  else if Str.startswith "Python:" line then Some "python"
  else None.

(** The label found further in a line that does not start with one, and
    the key under which it is stored. *)
Definition inline_key (line : string) : option (string * string) :=
  match anchored_key line with
  | Some _ => None
  | None =>
      if Str.contains "Rust:" line then Some ("Rust:", "rust")
      else if Str.contains "Python:" line then Some ("Python:", "python")
      else None
  end.

(** No rule applies to the line: no metadata prefix, no section header,
    no [Test:] marker, no implementation label. *)
Definition unrecognized (raw : string) : bool :=
  let line := Str.strip raw in
  falls_through line
  && negb (Str.contains "Rust:" line)
  && negb (Str.contains "Python:" line).

(** The mapping of a section that has one of its own. *)
Definition section_map (sec : section) (r : Report) : dict float :=
  match sec with
  | Startup => startup r
  | Memory => memory r
  | Correction => []
  end.

(** The line is one of the three section headers. *)
Definition is_header (line : string) : bool :=
  String.eqb line "STARTUP TIME"
  || String.eqb line "CORRECTION TIME"
  || String.eqb line "MEMORY USAGE".

Ltac bind_ok H :=
  match type of H with
  | bind ?m _ = Ok _ =>
      let E := fresh "E" in
      destruct m eqn:E; simpl in H; [|discriminate H]
  end.

(** A [Rust:] or [Python:] line with a numeric value: the key and the
    value that the parser reads from it. *)
Definition reading (raw : string) : option (string * float) :=
  let line := Str.strip raw in
  match anchored_key line, anchored_value line with
  | Some k, Ok value => option_map (pair k) (Float.of_string value)
  | _, _ => None
  end.

(** The two timing lines of a block, in either order. *)
Definition block (x y : string) (a b : float) : Prop :=
  (reading x = Some ("rust", a) /\ reading y = Some ("python", b))
  \/ (reading x = Some ("python", b) /\ reading y = Some ("rust", a)).


Definition recognized (raw : string) : bool := negb (unrecognized raw).

(** The token that the parser converts on a line with a label: the
    outcome of lines 58, 68, 78 or 83; [None] when the line has no label. *)
Definition timing_value (line : string) : option (result string) :=
  match anchored_key line with
  | Some _ => Some (anchored_value line)
  | None =>
      match inline_key line with
      | Some (label, _) => Some (inline_value label line)
      | None => None
      end
  end.

(** The value of the line goes to [correction.corrections], under the
    pending test-case name: a label at the start of a line of the
    correction section, or a label further in the line. *)
Definition recorded_under_test (sec : section) (line : string) : bool :=
  match anchored_key line with
  | Some _ => match sec with Correction => true | _ => false end
  | None => match inline_key line with Some _ => true | None => false end
  end.

(** The Report with nothing but the two startup times of 1000 and 2000
    microseconds. *)
Definition minimal_report : Report :=
  {| startup := [("rust", Float.of_Z 1000); ("python", Float.of_Z 2000)];
     correction := None; memory := []; metadata := [] |}.

(** The Report of [MEMORY USAGE / Rust: 0 MB / Python: 20 MB]. *)
Definition zero_memory_report : Report :=
  {| startup := []; correction := None;
     memory := [("rust", S754_zero false); ("python", Float.of_Z 20)];
     metadata := [] |}.

(** The Report of [STARTUP TIME / Rust: 0 us / Python: 20 us]. *)
Definition zero_startup_report : Report :=
  {| startup := [("rust", S754_zero false); ("python", Float.of_Z 20)];
     correction := None; memory := []; metadata := [] |}.

(** ** The shape of a parsed Report *)

(** The keys of [d] are distinct and all among [allowed]. *)
Definition keys_among {V : Type} (allowed : list string) (d : dict V) : Prop :=
  NoDup (Dict.keys d) /\ Forall (fun k => In k allowed) (Dict.keys d).

Definition labels : list string := ["rust"; "python"].

Fixpoint all_word (s : string) : bool :=
  match s with
  | String c s' => Str.is_word c && all_word s'
  | EmptyString => true
  end.

(** A test-case name as [(\w+)] captures it. *)
Definition test_name (t : string) : Prop := t <> EmptyString /\ all_word t = true.

(** An entry of [correction.corrections]. *)
Definition entry_ok (e : string * dict float) : Prop :=
  test_name (fst e) /\ snd e <> [] /\ keys_among labels (snd e).

Definition well_formed (r : Report) : Prop :=
  keys_among labels (startup r)
  /\ keys_among labels (memory r)
  /\ keys_among ["date"; "iterations"] (metadata r)
  /\ match correction r with
     | None => True
     | Some c => c <> [] /\ NoDup (Dict.keys c) /\ Forall entry_ok c
     end.

(** The invariant of the loop of [parse_results]. *)
Definition state_ok (st : state) : Prop :=
  well_formed (results st)
  /\ forall t, current_test st = Some t -> test_name t.

(** The exceptions that the loop of [parse_results] can raise. *)
Definition parser_exn (e : exn) : Prop :=
  e = ValueError \/ e = IndexError \/ e = UnboundLocalError.

(** The section that a header line switches to. *)
Definition header_section (line : string) : option section :=
  if String.eqb line "STARTUP TIME" then Some Startup
  else if String.eqb line "CORRECTION TIME" then Some Correction
  else if String.eqb line "MEMORY USAGE" then Some Memory
  else None.

(** A Report without any timing or memory value. *)
Definition no_data (r : Report) : Prop :=
  startup r = [] /\ correction r = None /\ memory r = [].

(** What one line can do to the state of the loop. *)
Inductive transition (st : state) : state -> Prop :=
| t_same : transition st st
| t_metadata (k v : string) :
    In k ["date"; "iterations"] -> transition st (set_metadata k v st)
| t_section (sec : section) : transition st (set_section sec st)
| t_test (t : string) : test_name t -> transition st (set_test t st)
| t_startup (k : string) (v : float) :
    In k labels -> current_section st = Some Startup ->
    transition st (set_startup k v st)
| t_memory (k : string) (v : float) :
    In k labels -> current_section st = Some Memory ->
    transition st (set_memory k v st)
| t_correction (t k : string) (v : float) :
    In k labels -> current_test st = Some t ->
    transition st (set_correction t k v st).

(** The section in force after [lines]: that of the last header. *)
Definition final_section (sec : option section) (lines : list string)
  : option section :=
  fold_left (fun s l => match header_section (Str.strip l) with
                        | Some h => Some h
                        | None => s
                        end) lines sec.

(** The pending test name after [lines]: that of the last marker. *)
Definition final_test (t : option string) (lines : list string) : option string :=
  fold_left (fun s l => match match_test (Str.strip l) with
                        | Some n => Some n
                        | None => s
                        end) lines t.

(** ** Effects of the renderers *)

(** The action only draws on the current axes, and does not fail. *)
Definition draws (m : io Plt.world unit) : Prop :=
  forall w, exists ax, m w = ({| axes := ax; files := files w |}, Ok tt).

(** The action ends with [res] and has then written the files [names],
    in that order, after those that were there. *)
Definition writes (names : list string) (res : result unit)
           (m : io Plt.world unit) : Prop :=
  forall w, exists w',
    m w = (w', res) /\ map fst (files w') = map fst (files w) ++ names.

(** The action raises an exception, whatever the world it starts in. *)
Definition fails {W A : Type} (m : io W A) : Prop :=
  forall w, exists e, snd (m w) = Raise e.

(** A mapping that is empty or has a value for one of the two
    implementations: every mapping of a parsed Report is. *)
Definition labelled (d : dict float) : bool :=
  negb (Dict.nonempty d) || Dict.mem "rust" d || Dict.mem "python" d.

(** The rust value of the mapping is there, with the python value, and
    is zero: the denominator of an unguarded ratio. *)
Definition zero_rust (d : dict float) : bool :=
  both d && Float.is_zero (item "rust" d).

(** ** The order of file names *)


(** ** The text of a labelled line *)

(** The text of [s] before the first [sep]; all of [s] when it has none. *)
Fixpoint text_until (sep s : string) : string :=
  match s with
  | EmptyString => EmptyString
  | String c s' =>
      if Str.startswith sep s then EmptyString else String c (text_until sep s')
  end.

(** The text of [s] after the first [sep]. *)
Fixpoint text_after (sep s : string) : option string :=
  match s with
  | EmptyString => None
  | String c s' =>
      if Str.startswith sep s then Some (Str.drop (String.length sep) s)
      else text_after sep s'
  end.

(** Where the parser cuts a line with a label: at the colons when the
    label starts the line, at the occurrences of the label otherwise. *)
Definition separator (line : string) : option string :=
  match anchored_key line with
  | Some _ => Some ":"
  | None =>
      match inline_key line with
      | Some (label, _) => Some label
      | None => None
      end
  end.

(** The text between the first separator of the line and the next one
    (the end of the line when there is no other). *)
Definition field (line : string) : option string :=
  match separator line with
  | Some sep => option_map (text_until sep) (text_after sep line)
  | None => None
  end.

(** The first blank-delimited word of the field. *)
Definition token (line : string) : option string :=
  match field line with
  | Some f => hd_error (Str.words f)
  | None => None
  end.

(** The first blank-delimited word after the first colon of the line. *)
Definition token_after_colon (line : string) : option string :=
  match text_after ":" line with
  | Some a => hd_error (Str.words a)
  | None => None
  end.

(** The line is [Test: ] followed by the word [n] and by nothing that
    continues the word. *)
Definition names (raw n : string) : Prop :=
  exists rest,
    Str.strip raw = ("Test: " ++ n ++ rest)%string
    /\ test_name n
    /\ match rest with
       | String c _ => Str.is_word c = false
       | EmptyString => True
       end.



(** ** Numbers that can be plotted *)

Definition finite_values (d : dict float) : bool :=
  forallb Float.is_finite (Dict.values d).

(** The upper limit of lines 129 and 219, when there is a bar, is finite,
    and so is the ratio of the callout of lines 133 and 223. *)
Definition finite_limits (scale : float -> float) (d : dict float) : bool :=
  let '(_, heights, _) := lang_bars scale d in
  match Float.max heights with
  | Some top => Float.is_finite (Float.mul top (Float.of_decimal false 12 (-1)))
  | None => true
  end
  && match heights with
     | [a; b] => negb (Float.pos a) || Float.is_finite (Float.quot b a)
     | _ => true
     end.

(** Every number that the graphical renderer hands to the plotting
    library is finite: the values of the Report, the limits of the axes and
    the ratios. *)
Definition plottable (r : Report) : bool :=
  finite_values (startup r)
  && finite_values (memory r)
  && forallb (fun e => finite_values (snd e)) (corrections_of r)
  && finite_limits (fun v => Float.quot v f1000) (startup r)
  && finite_limits (fun v => v) (memory r)
  && match radar_axes r with
     | Ok (_, speedups) => forallb Float.is_finite speedups
     | Raise _ => true
     end.

(** * Properties of the parser *)

(** ** The dispatch of one line *)

Lemma run_app (st : state) (a b : list string) :
  run st (a ++ b) = (st' <- run st a ;; run st' b).
Proof.
  revert st. induction a as [|l a IH]; intros st; simpl.
  - reflexivity.
  - destruct (step st l) as [st1|e]; simpl; [apply IH | reflexivity].
Qed.

Lemma startswith_cons (a : ascii) (p s : string) :
  Str.startswith (String a p) s = true ->
  exists s', s = String a s' /\ Str.startswith p s' = true.
Proof.
  destruct s as [|b s']; simpl; [discriminate|].
  destruct (Ascii.eqb_spec a b) as [->|]; simpl; [|discriminate].
  intros H. now exists s'.
Qed.

Lemma startswith_contains (p s : string) :
  Str.startswith p s = true -> Str.contains p s = true.
Proof. intros H. destruct s; simpl; rewrite H; reflexivity. Qed.

Lemma step_falls_through (st : state) (raw : string) :
  falls_through (Str.strip raw) = true ->
  step st raw =
  match current_section st with
  | Some sec => timing_line sec (Str.strip raw) st
  | None => Ok st
  end.
Proof.
  unfold falls_through, step. intros H.
  repeat (apply andb_prop in H; destruct H as [H ?]).
  repeat match goal with
         | E : negb _ = true |- _ => apply negb_true_iff in E; rewrite E
         end.
  reflexivity.
Qed.

Lemma anchored_falls_through (line k : string) :
  anchored_key line = Some k -> falls_through line = true.
Proof.
  unfold anchored_key.
  destruct (Str.startswith "Rust:" line) eqn:R.
  - apply startswith_cons in R as (s & -> & _). reflexivity.
  - destruct (Str.startswith "Python:" line) eqn:P; [|discriminate].
    apply startswith_cons in P as (s & -> & _). reflexivity.
Qed.

Lemma timing_line_anchored (sec : section) (line k : string) (st : state) :
  anchored_key line = Some k ->
  timing_line sec line st = store_anchored sec k line st.
Proof.
  unfold anchored_key, timing_line.
  destruct (Str.startswith "Rust:" line).
  - now intros [= <-].
  - destruct (Str.startswith "Python:" line); [now intros [= <-] | discriminate].
Qed.

Lemma timing_line_inline (sec : section) (line label k : string) (st : state) :
  inline_key line = Some (label, k) ->
  timing_line sec line st = store_inline label k line st.
Proof.
  unfold inline_key, anchored_key, timing_line.
  destruct (Str.startswith "Rust:" line); [discriminate|].
  destruct (Str.startswith "Python:" line); [discriminate|].
  destruct (Str.contains "Rust:" line); [now intros [= <- <-]|].
  destruct (Str.contains "Python:" line); [now intros [= <- <-] | discriminate].
Qed.

Lemma step_unrecognized (st : state) (raw : string) :
  unrecognized raw = true -> step st raw = Ok st.
Proof.
  unfold unrecognized. intros H.
  apply andb_prop in H as [H P]. apply andb_prop in H as [H R].
  apply negb_true_iff in P, R.
  rewrite (step_falls_through _ _ H).
  destruct (current_section st) as [sec|]; [|reflexivity].
  unfold timing_line. rewrite R, P.
  destruct (Str.startswith "Rust:" (Str.strip raw)) eqn:AR.
  { apply startswith_contains in AR. congruence. }
  destruct (Str.startswith "Python:" (Str.strip raw)) eqn:AP.
  { apply startswith_contains in AP. congruence. }
  reflexivity.
Qed.

Lemma get_set_same {V : Type} (k : string) (v : V) (d : dict V) :
  Dict.get k (Dict.set k v d) = Some v.
Proof.
  induction d as [|[k' v'] d IH]; simpl.
  - now rewrite String.eqb_refl.
  - destruct (String.eqb k' k) eqn:E; simpl; rewrite E; auto.
Qed.

(** ** Lines that no rule recognizes *)

(** C8: a line that matches none of the dispatch rules can be removed
    from the input without changing the outcome of the parse: the same
    Report, field by field, or the same exception. *)
Theorem unrecognized_line_ignored (pre post : list string) (raw : string) :
  unrecognized raw = true ->
  parse_lines (pre ++ raw :: post) = parse_lines (pre ++ post).
Proof.
  intros H. unfold parse_lines. rewrite !run_app.
  destruct (run init pre) as [st|e]; simpl; [|reflexivity].
  now rewrite (step_unrecognized st raw H).
Qed.

Lemma unrecognized_line_ignored_witness :
  unrecognized "# a comment" = true /\
  parse_lines (["STARTUP TIME"] ++ "# a comment" :: ["Rust: 5000 us"])
  = parse_lines (["STARTUP TIME"] ++ ["Rust: 5000 us"]).
Proof.
  split; [reflexivity|].
  apply (unrecognized_line_ignored ["STARTUP TIME"] ["Rust: 5000 us"] "# a comment").
  reflexivity.
Defined.

(** ** Where a labelled value is stored *)

Lemma store_anchored_ok (sec : section) (k line value : string) (v : float)
      (st : state) :
  anchored_value line = Ok value ->
  Float.of_string value = Some v ->
  sec <> Correction ->
  store_anchored sec k line st =
  Ok (match sec with Startup => set_startup k v st | _ => set_memory k v st end).
Proof.
  intros Hv Hf Hs. unfold store_anchored, py_float. rewrite Hv. simpl.
  destruct sec; try congruence; rewrite Hf; reflexivity.
Qed.


Lemma set_inner_get (t k : string) (v : float) (c : dict (dict float)) :
  exists inner, Dict.get t (set_inner t k v c) = Some inner
                /\ Dict.get k inner = Some v.
Proof.
  unfold set_inner. eexists. split; [apply get_set_same | apply get_set_same].
Qed.

(** While the current section is startup or memory, a line that starts
    with an implementation label has its value stored under that label in
    the mapping of the section, and [correction.corrections] is left as it
    was. *)
Lemma anchored_label_stored (st : state) (raw : string) (sec : section)
      (k value : string) (v : float) :
  current_section st = Some sec ->
  sec <> Correction ->
  anchored_key (Str.strip raw) = Some k ->
  anchored_value (Str.strip raw) = Ok value ->
  Float.of_string value = Some v ->
  exists st',
    step st raw = Ok st'
    /\ Dict.get k (section_map sec (results st')) = Some v
    /\ correction (results st') = correction (results st).
Proof.
  intros Hsec Hnc Hk Hv Hf.
  rewrite (step_falls_through _ _ (anchored_falls_through _ _ Hk)), Hsec.
  rewrite (timing_line_anchored _ _ _ _ Hk).
  rewrite (store_anchored_ok _ _ _ _ _ _ Hv Hf Hnc).
  eexists. split; [reflexivity|].
  destruct sec; try congruence; simpl; split; auto using get_set_same.
Qed.

(** C1: the rule for a label further in the line (lines 77-86) never
    reads the current section, which the rule for a label at the start of
    the line (lines 57-76) dispatches on.  In the startup section the line
    [avg Rust: 5 us] is not stored in the startup mapping: without a
    [Test:] line before it the parser raises [UnboundLocalError], and with
    one the value goes into [correction.corrections] under that test
    name; the same line with the label at its start is stored in the
    startup mapping. *)
Lemma inline_label_misses_section :
  (st <- run init ["STARTUP TIME"] ;; Ok (current_section st)) = Ok (Some Startup)
  /\ Str.contains "Rust:" (Str.strip "avg Rust: 5 us") = true
  /\ parse_lines ["STARTUP TIME"; "avg Rust: 5 us"] = Raise UnboundLocalError
  /\ parse_lines ["Test: t"; "STARTUP TIME"; "avg Rust: 5 us"]
     = Ok {| startup := [];
             correction := Some [("t", [("rust", Float.of_Z 5)])];
             memory := [];
             metadata := [] |}
  /\ parse_lines ["Test: t"; "STARTUP TIME"; "Rust: 5 us"]
     = Ok {| startup := [("rust", Float.of_Z 5)];
             correction := None;
             memory := [];
             metadata := [] |}.
Proof. repeat split; vm_compute; reflexivity. Qed.

(** ** The pending test-case name *)

Lemma startswith_app (p q s : string) :
  Str.startswith (p ++ q) s = true -> Str.startswith p s = true.
Proof.
  revert s. induction p as [|a p IH]; intros s; simpl; [reflexivity|].
  destruct s as [|b s]; [discriminate|].
  intros H. apply andb_prop in H as [Hc Hs].
  rewrite Hc. simpl. now apply IH.
Qed.

Lemma match_test_marker (line t : string) :
  match_test line = Some t -> Str.startswith "Test:" line = true.
Proof.
  unfold match_test.
  destruct (Str.startswith "Test: " line) eqn:E; [|discriminate].
  intros _. now apply (startswith_app "Test:" " ").
Qed.


Lemma store_correction_test (k value : string) (st st' : state) :
  store_correction k value st = Ok st' -> current_test st' = current_test st.
Proof.
  unfold store_correction. intros H. bind_ok H. bind_ok H.
  now injection H as <-.
Qed.

Lemma timing_line_test (sec : section) (line : string) (st st' : state) :
  timing_line sec line st = Ok st' -> current_test st' = current_test st.
Proof.
  assert (A : forall k, store_anchored sec k line st = Ok st' ->
                        current_test st' = current_test st).
  { intros k H. unfold store_anchored in H. bind_ok H.
    destruct sec; try (now apply store_correction_test in H);
      bind_ok H; now injection H as <-. }
  assert (I : forall label k, store_inline label k line st = Ok st' ->
                              current_test st' = current_test st).
  { intros label k H. unfold store_inline in H. bind_ok H.
    now apply store_correction_test in H. }
  unfold timing_line.
  repeat match goal with
         | |- context [if ?b then _ else _] => destruct b
         end; eauto.
  now intros [= <-].
Qed.

(** Only a [Test:] marker with a word after it changes the pending
    test-case name. *)
Lemma step_current_test (st st' : state) (raw : string) :
  step st raw = Ok st' ->
  current_test st' =
  match match_test (Str.strip raw) with
  | Some t => Some t
  | None => current_test st
  end.
Proof.
  unfold step. set (line := Str.strip raw).
  destruct (Str.startswith "Date:" line) eqn:D.
  { apply startswith_cons in D as (s & -> & _).
    intros H. bind_ok H. now injection H as <-. }
  destruct (Str.startswith "Iterations:" line) eqn:I.
  { apply startswith_cons in I as (s & -> & _).
    intros H. bind_ok H. now injection H as <-. }
  destruct (String.eqb_spec line "STARTUP TIME") as [->|_].
  { now intros [= <-]. }
  destruct (String.eqb_spec line "CORRECTION TIME") as [->|_].
  { now intros [= <-]. }
  destruct (String.eqb_spec line "MEMORY USAGE") as [->|_].
  { now intros [= <-]. }
  destruct (Str.startswith "Test:" line) eqn:T.
  { destruct (match_test line); now intros [= <-]. }
  destruct (match_test line) as [t|] eqn:M.
  { apply match_test_marker in M. congruence. }
  destruct (current_section st) as [sec|].
  - apply timing_line_test.
  - now intros [= <-].
Qed.

Lemma run_current_test (lines : list string) (st st' : state) :
  Forall (fun l => match_test (Str.strip l) = None) lines ->
  run st lines = Ok st' ->
  current_test st' = current_test st.
Proof.
  revert st. induction lines as [|l lines IH]; intros st F H; simpl in H.
  - now injection H as <-.
  - inversion F as [|? ? Hl F']; subst.
    bind_ok H. rewrite (IH _ F' H).
    apply step_current_test in E. now rewrite Hl in E.
Qed.

(** A section header is no [Test:] marker, and sets the section only. *)
Lemma header_no_marker (line : string) :
  is_header line = true -> match_test line = None.
Proof.
  unfold is_header. intros H.
  apply orb_prop in H as [H|H]; [apply orb_prop in H as [H|H]|];
    apply String.eqb_eq in H; subst; reflexivity.
Qed.

Lemma step_header (st : state) (raw : string) :
  is_header (Str.strip raw) = true ->
  exists sec, step st raw = Ok (set_section sec st).
Proof.
  unfold is_header, step. intros H.
  apply orb_prop in H as [H|H]; [apply orb_prop in H as [H|H]|];
    apply String.eqb_eq in H; rewrite H; eexists; reflexivity.
Qed.




(** ** Two test cases under CORRECTION TIME *)

Lemma run_recognized (lines : list string) (st : state) :
  run st lines = run st (filter recognized lines).
Proof.
  revert st. induction lines as [|l lines IH]; intros st; simpl; [reflexivity|].
  unfold recognized at 1. destruct (unrecognized l) eqn:U; simpl.
  - rewrite (step_unrecognized st l U). simpl. apply IH.
  - destruct (step st l); simpl; [apply IH | reflexivity].
Qed.



(** ** Failures of the parser *)

(** *** The token of a line that starts with a label *)

Lemma split_from_no_cut (sep : string) (budget : option nat) (cur s : string) :
  budget = Some O \/ Str.contains sep s = false ->
  Str.split_from sep budget O cur s = [Str.rev_acc s cur].
Proof.
  revert cur. induction s as [|c s IH]; intros cur H; [reflexivity|].
  cbn [Str.split_from].
  assert (E : (match budget with Some O => false | _ => true end
               && Str.startswith sep (String c s))%bool = false).
  { destruct H as [->|H]; [reflexivity|].
    cbn [Str.contains] in H. apply orb_false_elim in H as [-> _].
    apply andb_false_r. }
  rewrite E. rewrite IH; [reflexivity|].
  destruct H as [H|H]; [now left|right].
  cbn [Str.contains] in H. now apply orb_false_elim in H as [_ H].
Qed.

Lemma words_from_lstrip (s : string) :
  Str.words_from EmptyString (Str.lstrip s) = Str.words_from EmptyString s.
Proof.
  induction s as [|c s IH]; [reflexivity|].
  cbn [Str.lstrip Str.words_from].
  destruct (Str.is_space c) eqn:E; [exact IH|].
  cbn [Str.words_from]. now rewrite E.
Qed.

Lemma words_from_rstrip (s cur : string) :
  Str.words_from cur (Str.rstrip s) = Str.words_from cur s.
Proof.
  revert cur. induction s as [|c s IH]; intros cur; [reflexivity|].
  cbn [Str.rstrip].
  destruct (Str.rstrip s) as [|a r] eqn:R.
  - cbn [Str.words_from]. destruct (Str.is_space c) eqn:E.
    + rewrite <- (IH EmptyString). destruct cur; reflexivity.
    + cbn [Str.words_from]. rewrite E. now rewrite <- IH.
  - cbv iota. rewrite <- R in IH |- *.
    cbn [Str.words_from]. destruct (Str.is_space c); now rewrite !IH.
Qed.

(** Blanks around a text do not change its words. *)
Lemma words_strip (s : string) : Str.words (Str.strip s) = Str.words s.
Proof.
  unfold Str.words, Str.strip.
  now rewrite words_from_rstrip, words_from_lstrip.
Qed.

(** On a line that starts with a label and has no second colon, the
    token that the parser converts is the first blank-delimited word of
    the text after the colon.  With a second colon the text stops there:
    see [token_before_second_colon]. *)
Lemma anchored_value_first_token (line k rest : string) :
  anchored_key line = Some k ->
  index (Str.split_max ":" 1 line) 1 = Ok rest ->
  Str.contains ":" rest = false ->
  anchored_value line = index (Str.words rest) 0.
Proof.
  unfold anchored_key. intros Hk Hrest Hc.
  assert (S : Str.split ":" line = Str.split_max ":" 1 line
              /\ exists l, Str.split_max ":" 1 line = [l; rest]).
  { destruct (Str.startswith "Rust:" line) eqn:R.
    - do 5 (apply startswith_cons in R as (? & -> & R)).
      unfold Str.split, Str.split_max in *. cbn in Hrest |- *.
      rewrite split_from_no_cut in Hrest by now left.
      injection Hrest as <-.
      rewrite !split_from_no_cut by auto. split; eauto.
    - destruct (Str.startswith "Python:" line) eqn:P; [|discriminate].
      do 7 (apply startswith_cons in P as (? & -> & P)).
      unfold Str.split, Str.split_max in *. cbn in Hrest |- *.
      rewrite split_from_no_cut in Hrest by now left.
      injection Hrest as <-.
      rewrite !split_from_no_cut by auto. split; eauto. }
  destruct S as [S (l & L)].
  unfold anchored_value. rewrite S, L. cbn.
  now rewrite words_strip.
Qed.

Lemma token_before_second_colon :
  anchored_value "Rust: 12:30" = Ok "12"
  /\ index (Str.split_max ":" 1 "Rust: 12:30") 1 = Ok " 12:30".
Proof. split; reflexivity. Qed.

Lemma timing_line_bad_value (sec : section) (line value : string) (st : state) :
  timing_value line = Some (Ok value) ->
  Float.of_string value = None ->
  timing_line sec line st = Raise ValueError.
Proof.
  unfold timing_value. intros Hv Hf.
  destruct (anchored_key line) as [k|] eqn:Hk.
  - injection Hv as Hv.
    rewrite (timing_line_anchored _ _ _ _ Hk).
    unfold store_anchored, store_correction, py_float.
    rewrite Hv. simpl. destruct sec; rewrite Hf; reflexivity.
  - destruct (inline_key line) as [[label k]|] eqn:Hi; [|discriminate].
    injection Hv as Hv.
    rewrite (timing_line_inline _ _ _ _ _ Hi).
    unfold store_inline, store_correction, py_float.
    rewrite Hv. simpl. rewrite Hf. reflexivity.
Qed.

Lemma timing_line_unbound (sec : section) (line value : string) (v : float)
      (st : state) :
  recorded_under_test sec line = true ->
  timing_value line = Some (Ok value) ->
  Float.of_string value = Some v ->
  current_test st = None ->
  timing_line sec line st = Raise UnboundLocalError.
Proof.
  unfold recorded_under_test, timing_value. intros Hr Hv Hf Ht.
  destruct (anchored_key line) as [k|] eqn:Hk.
  - injection Hv as Hv. destruct sec; try discriminate.
    rewrite (timing_line_anchored _ _ _ _ Hk).
    unfold store_anchored, store_correction, py_float, read_test.
    rewrite Hv. simpl. rewrite Hf, Ht. reflexivity.
  - destruct (inline_key line) as [[label k]|] eqn:Hi; [|discriminate].
    injection Hv as Hv.
    rewrite (timing_line_inline _ _ _ _ _ Hi).
    unfold store_inline, store_correction, py_float, read_test.
    rewrite Hv. simpl. rewrite Hf, Ht. reflexivity.
Qed.

(** *** The field and the token of a labelled line *)

Lemma split_from_skip (sep : string) (budget : option nat) (k : nat)
      (cur s : string) :
  Str.split_from sep budget k cur s
  = Str.split_from sep budget O cur (Str.drop k s).
Proof.
  revert k. induction s as [|c s IH]; intros k.
  - destruct k; reflexivity.
  - destruct k as [|k]; [reflexivity|]. cbn [Str.split_from Str.drop]. apply IH.
Qed.

Lemma split_from_head (sep cur s : string) :
  exists tl,
    Str.split_from sep None O cur s = Str.rev_acc (text_until sep s) cur :: tl.
Proof.
  revert cur. induction s as [|c s IH]; intros cur.
  - eexists. reflexivity.
  - cbn [Str.split_from text_until andb].
    destruct (Str.startswith sep (String c s)).
    + eexists. reflexivity.
    + destruct (IH (String c cur)) as (tl & E). exists tl. exact E.
Qed.

Lemma split_first (a : ascii) (p cur s x : string) :
  text_after (String a p) s = Some x ->
  Str.split_from (String a p) None O cur s
  = Str.rev_acc (text_until (String a p) s) cur
    :: Str.split_from (String a p) None O EmptyString x.
Proof.
  revert cur. induction s as [|c s IH]; intros cur; [discriminate|].
  cbn [Str.split_from text_until text_after andb].
  destruct (Str.startswith (String a p) (String c s)).
  - intros [= <-]. cbn [option_map String.length Nat.pred Str.drop].
    now rewrite split_from_skip.
  - intros H. now rewrite (IH _ H).
Qed.

Lemma contains_after (a : ascii) (p s : string) :
  Str.contains (String a p) s = true ->
  exists x, text_after (String a p) s = Some x.
Proof.
  induction s as [|c s IH]; [discriminate|].
  cbn [Str.contains text_after].
  destruct (Str.startswith (String a p) (String c s)); [eauto|].
  exact IH.
Qed.

(** What lines 58, 68, 78 and 83 compute: the first word of the text
    between the first separator and the next one. *)
Lemma cut_value (a : ascii) (p line x : string) :
  text_after (String a p) line = Some x ->
  (q <- index (Str.split (String a p) line) 1 ;;
   index (Str.words (Str.strip q)) 0)
  = index (Str.words (text_until (String a p) x)) 0.
Proof.
  intros H. unfold Str.split. rewrite (split_first _ _ _ _ _ H).
  destruct (split_from_head (String a p) EmptyString x) as (tl & ->).
  cbn [index nth_error bind Str.rev_acc]. now rewrite words_strip.
Qed.

Lemma field_value (line sep : string) :
  separator line = Some sep ->
  exists f,
    field line = Some f
    /\ timing_value line = Some (index (Str.words f) 0).
Proof.
  unfold field, separator, timing_value.
  destruct (anchored_key line) as [k|] eqn:Hk.
  - intros [= <-].
    assert (C : Str.contains ":" line = true).
    { unfold anchored_key in Hk.
      destruct (Str.startswith "Rust:" line) eqn:R.
      - do 5 (apply startswith_cons in R as (? & -> & R)). reflexivity.
      - destruct (Str.startswith "Python:" line) eqn:P; [|discriminate].
        do 7 (apply startswith_cons in P as (? & -> & P)). reflexivity. }
    destruct (contains_after _ _ _ C) as (x & X). rewrite X. cbn.
    eexists. split; [reflexivity|].
    unfold anchored_value. now rewrite (cut_value _ _ _ _ X).
  - destruct (inline_key line) as [[label k]|] eqn:Hi; [|discriminate].
    intros [= <-].
    assert (C : (label = "Rust:" \/ label = "Python:")
                /\ Str.contains label line = true).
    { unfold inline_key in Hi. rewrite Hk in Hi.
      destruct (Str.contains "Rust:" line) eqn:R; [injection Hi as <- _; auto|].
      destruct (Str.contains "Python:" line) eqn:P; [|discriminate].
      injection Hi as <- _; auto. }
    destruct C as [[->| ->] C];
      destruct (contains_after _ _ _ C) as (x & X); rewrite X; cbn;
      (eexists; split; [reflexivity|]);
      unfold inline_value; now rewrite (cut_value _ _ _ _ X).
Qed.

Lemma token_value (line tok : string) :
  token line = Some tok -> timing_value line = Some (Ok tok).
Proof.
  unfold token. intros H.
  destruct (separator line) as [sep|] eqn:S.
  - destruct (field_value line sep S) as (f & F & V).
    rewrite F in H. rewrite V. destruct (Str.words f); [discriminate|].
    now injection H as <-.
  - unfold field in H. now rewrite S in H.
Qed.

(** C9 (amended): when a section is active and a line with an
    implementation label (a line that is no metadata line, section header
    or [Test:] line) carries, as the first blank-delimited token of its
    field, a text that is not a floating-point literal, [parse_results]
    raises [ValueError] at that line, whatever follows, and returns no
    Report.  The field is the text between the first colon and
    the next colon of the line when the label starts the line, between the
    label and its next occurrence otherwise, and runs to the end of the
    line when there is no next one.  A path that names no file makes
    [parse_results] raise [FileNotFoundError]. *)
Theorem malformed_number_aborts
        (pre post : list string) (st : state) (sec : section)
        (raw tok : string) (fs : filesystem) (filepath : string) :
  run init pre = Ok st ->
  current_section st = Some sec ->
  falls_through (Str.strip raw) = true ->
  token (Str.strip raw) = Some tok ->
  Float.of_string tok = None ->
  fs filepath = Absent ->
  parse_lines (pre ++ raw :: post) = Raise ValueError
  /\ parse_results fs filepath = Raise FileNotFoundError.
Proof.
  intros Hpre Hsec Hft Ht Hf Hp. split.
  - apply token_value in Ht.
    unfold parse_lines. rewrite run_app, Hpre. simpl.
    rewrite (step_falls_through _ _ Hft), Hsec.
    rewrite (timing_line_bad_value _ _ _ _ Ht Hf). reflexivity.
  - unfold parse_results, open. now rewrite Hp.
Qed.

Lemma malformed_number_aborts_witness :
  parse_lines (["STARTUP TIME"; "Rust: 1000 us"] ++ "Python: n/a" :: ["MEMORY USAGE"])
  = Raise ValueError
  /\ parse_results (fun _ => Absent) "benchmark_results/comparison.txt"
     = Raise FileNotFoundError.
Proof.
  apply (malformed_number_aborts
           ["STARTUP TIME"; "Rust: 1000 us"] ["MEMORY USAGE"]
           (set_startup "rust" (Float.of_Z 1000) (set_section Startup init))
           Startup "Python: n/a" "n/a"
           (fun _ => Absent) "benchmark_results/comparison.txt");
    reflexivity.
Defined.

(** C9, as stated, fails: the first blank-delimited token after the
    colon of [Rust: 12:30] is [12:30], which is no floating-point literal,
    but the parser cuts the line at the second colon, converts [12] and
    raises nothing. *)
Lemma colon_in_token :
  token_after_colon "Rust: 12:30" = Some "12:30"
  /\ Float.of_string "12:30" = None
  /\ token "Rust: 12:30" = Some "12"
  /\ parse_lines ["STARTUP TIME"; "Rust: 12:30"]
     = Ok {| startup := [("rust", Float.of_Z 12)];
             correction := None;
             memory := [];
             metadata := [] |}.
Proof. repeat split; vm_compute; reflexivity. Qed.

(** C10: a line whose value would go under a test-case name (a label at
    the start of a line of the correction section, or a label further in
    a line of any section), with a token that converts, met while no
    [Test:] marker has set a name yet, makes [parse_results] raise
    [UnboundLocalError]: the line is neither ignored nor recorded. *)
Theorem label_before_any_test
        (pre post : list string) (st : state) (sec : section)
        (raw value : string) (v : float) :
  run init pre = Ok st ->
  Forall (fun l => match_test (Str.strip l) = None) pre ->
  current_section st = Some sec ->
  falls_through (Str.strip raw) = true ->
  recorded_under_test sec (Str.strip raw) = true ->
  timing_value (Str.strip raw) = Some (Ok value) ->
  Float.of_string value = Some v ->
  parse_lines (pre ++ raw :: post) = Raise UnboundLocalError.
Proof.
  intros Hpre F Hsec Hft Hr Hv Hf.
  pose proof (run_current_test _ _ _ F Hpre) as Ht. simpl in Ht.
  unfold parse_lines. rewrite run_app, Hpre. simpl.
  rewrite (step_falls_through _ _ Hft), Hsec.
  rewrite (timing_line_unbound _ _ _ _ _ Hr Hv Hf Ht). reflexivity.
Qed.

Lemma label_before_any_test_witness :
  parse_lines (["STARTUP TIME"; "Rust: 1000 us"; "CORRECTION TIME"]
                 ++ "Rust: 1500 us" :: ["Test: git_push"])
  = Raise UnboundLocalError
  /\ parse_lines (["STARTUP TIME"] ++ "startup Rust: 1000 us" :: [])
     = Raise UnboundLocalError.
Proof.
  split.
  - apply (label_before_any_test
             ["STARTUP TIME"; "Rust: 1000 us"; "CORRECTION TIME"] ["Test: git_push"]
             (set_section Correction
                (set_startup "rust" (Float.of_Z 1000) (set_section Startup init)))
             Correction "Rust: 1500 us" "1500" (Float.of_Z 1500));
      try reflexivity.
    repeat constructor.
  - apply (label_before_any_test
             ["STARTUP TIME"] [] (set_section Startup init)
             Startup "startup Rust: 1000 us" "1000" (Float.of_Z 1000));
      try reflexivity.
    repeat constructor.
Defined.

(** * Properties of the renderers *)

(** ** The length of a bar *)









(** ** The charts of the graphical renderer *)

Lemma step_startup_header (st : state) (raw : string) :
  Str.strip raw = "STARTUP TIME" ->
  step st raw = Ok (set_section Startup st).
Proof. intros H. unfold step. rewrite H. reflexivity. Qed.

Lemma step_reading_startup (st : state) (raw k : string) (v : float) :
  current_section st = Some Startup ->
  reading raw = Some (k, v) ->
  step st raw = Ok (set_startup k v st).
Proof.
  intros Hsec. unfold reading.
  destruct (anchored_key (Str.strip raw)) as [k'|] eqn:Hk; [|discriminate].
  destruct (anchored_value (Str.strip raw)) as [value|] eqn:Hv; [|discriminate].
  destruct (Float.of_string value) as [v'|] eqn:Hf; [|discriminate].
  intros [= -> ->].
  rewrite (step_falls_through _ _ (anchored_falls_through _ _ Hk)), Hsec.
  rewrite (timing_line_anchored _ _ _ _ Hk).
  now rewrite (store_anchored_ok Startup _ _ _ _ _ Hv Hf).
Qed.

(** C4 (amended): for a report whose only recognized lines are the
    STARTUP TIME header, a [Rust:] line of 1000 us and a [Python:] line
    of 2000 us, the graphical renderer ends without an exception and
    writes exactly two files: the startup chart, which carries the callout
    [2.0x faster], and the summary radar chart, with the single axis
    [Startup] at the ratio 2; the correction and memory charts are not
    written. *)
Theorem minimal_report_charts (lines : list string) (h x y : string) :
  filter recognized lines = [h; x; y] ->
  Str.strip h = "STARTUP TIME" ->
  reading x = Some ("rust", Float.of_Z 1000) ->
  reading y = Some ("python", Float.of_Z 2000) ->
  exists r startup_calls radar_calls,
    parse_lines lines = Ok r
    /\ snd (generate_matplotlib_charts r start) = Ok tt
    /\ files (fst (generate_matplotlib_charts r start))
       = [("startup_time.png", startup_calls); ("summary_radar.png", radar_calls)]
    /\ filter (fun c => match c with Annotate _ => true | _ => false end)
              startup_calls
       = [Annotate "1.0 ms"; Annotate "2.0 ms"; Annotate "2.0x faster"]
    /\ In (SetXTickLabels ["Startup"]) radar_calls
    /\ In (Plot [S754_zero false; S754_zero false] [Float.of_Z 2; Float.of_Z 2])
          radar_calls.
Proof.
  intros Hl Hh Hx Hy.
  assert (P : parse_lines lines = Ok minimal_report).
  { unfold parse_lines. rewrite run_recognized, Hl. simpl.
    rewrite (step_startup_header _ _ Hh). simpl.
    erewrite step_reading_startup by first [reflexivity | eassumption]. simpl.
    erewrite step_reading_startup by first [reflexivity | eassumption].
    reflexivity. }
  exists minimal_report. rewrite P.
  do 2 eexists.
  split; [reflexivity|].
  split; [vm_compute; reflexivity|].
  split; [vm_compute; reflexivity|].
  split; [vm_compute; reflexivity|].
  split; vm_compute; tauto.
Qed.

Lemma minimal_report_charts_witness :
  exists r startup_calls radar_calls,
    parse_lines ["STARTUP TIME"; "Rust: 1000 us"; "Python: 2000 us"] = Ok r
    /\ snd (generate_matplotlib_charts r start) = Ok tt
    /\ files (fst (generate_matplotlib_charts r start))
       = [("startup_time.png", startup_calls); ("summary_radar.png", radar_calls)]
    /\ filter (fun c => match c with Annotate _ => true | _ => false end)
              startup_calls
       = [Annotate "1.0 ms"; Annotate "2.0 ms"; Annotate "2.0x faster"]
    /\ In (SetXTickLabels ["Startup"]) radar_calls
    /\ In (Plot [S754_zero false; S754_zero false] [Float.of_Z 2; Float.of_Z 2])
          radar_calls.
Proof.
  apply (minimal_report_charts _ "STARTUP TIME" "Rust: 1000 us" "Python: 2000 us");
    reflexivity.
Defined.

(** C4, as stated, fails: the minimal report gives two files, the
    summary radar chart among them. *)
Lemma minimal_report_writes_radar :
  (r <- parse_lines ["STARTUP TIME"; "Rust: 1000 us"; "Python: 2000 us"] ;;
   Ok (charts_written r))
  = Ok ["startup_time.png"; "summary_radar.png"].
Proof. vm_compute. reflexivity. Qed.

(** C3: with an empty startup mapping the startup chart is written all
    the same, with empty axes: [savefig] at line 141 is outside the test
    of line 102.  The three other charts are inside their tests. *)
Lemma empty_startup_chart_written :
  parse_lines [] = Ok empty_report
  /\ charts_written empty_report = ["startup_time.png"]
  /\ chart_content "startup_time.png" empty_report = Some []
  /\ (r <- parse_lines ["MEMORY USAGE"; "Rust: 10 MB"] ;;
      Ok (charts_written r, chart_content "startup_time.png" r))
     = Ok (["startup_time.png"; "memory_usage.png"], Some []).
Proof. repeat split; vm_compute; reflexivity. Qed.

(** ** Ratios and zero denominators *)

(** C2: three of the ratios are computed without a test of the
    denominator.  With a rust value of zero the text renderer raises
    [ZeroDivisionError] at line 333 (memory) and at line 299 (startup), and
    the graphical renderer at line 243 (the startup axis of the radar
    chart); the ratios of lines 132, 222, 247, 251 and 316 are guarded, so
    that the graphical renderer writes the memory chart of
    [zero_memory_report] without a callout and no radar chart. *)
Lemma unguarded_ratio_raises :
  parse_lines ["MEMORY USAGE"; "Rust: 0 MB"; "Python: 20 MB"] = Ok zero_memory_report
  /\ parse_lines ["STARTUP TIME"; "Rust: 0 us"; "Python: 20 us"] = Ok zero_startup_report
  /\ snd (generate_text_charts zero_memory_report EmptyString) = Raise ZeroDivisionError
  /\ snd (generate_text_charts zero_startup_report EmptyString) = Raise ZeroDivisionError
  /\ snd (generate_matplotlib_charts zero_startup_report start) = Raise ZeroDivisionError
  /\ charts_written zero_startup_report = ["startup_time.png"]
  /\ snd (generate_matplotlib_charts zero_memory_report start) = Ok tt
  /\ charts_written zero_memory_report = ["startup_time.png"; "memory_usage.png"]
  /\ option_map (filter (fun c => match c with Annotate _ => true | _ => false end))
                (chart_content "memory_usage.png" zero_memory_report)
     = Some [Annotate "0.0 MB"; Annotate "20.0 MB"].
Proof. repeat split; vm_compute; reflexivity. Qed.

(** * Further properties of the parser *)

(** ** Blanks around a line *)

Lemma lstrip_head (s : string) :
  match Str.lstrip s with
  | String c _ => Str.is_space c = false
  | EmptyString => True
  end.
Proof.
  induction s as [|c s IH]; simpl; [exact I|].
  destruct (Str.is_space c) eqn:E; [exact IH | exact E].
Qed.

Lemma rstrip_head (c : ascii) (s : string) :
  Str.is_space c = false ->
  exists r, Str.rstrip (String c s) = String c r.
Proof.
  intros E. cbn [Str.rstrip].
  destruct (Str.rstrip s); [rewrite E|]; eauto.
Qed.

Lemma rstrip_idempotent (s : string) : Str.rstrip (Str.rstrip s) = Str.rstrip s.
Proof.
  induction s as [|c s IH]; [reflexivity|].
  cbn [Str.rstrip].
  destruct (Str.rstrip s) as [|a r] eqn:R.
  - destruct (Str.is_space c) eqn:E; [reflexivity|].
    cbn. now rewrite E.
  - cbv iota. rewrite <- R in IH |- *.
    cbn [Str.rstrip]. rewrite IH, R. reflexivity.
Qed.

Lemma strip_idempotent (s : string) : Str.strip (Str.strip s) = Str.strip s.
Proof.
  unfold Str.strip.
  pose proof (lstrip_head s) as H.
  destruct (Str.lstrip s) as [|c t] eqn:L; [reflexivity|].
  destruct (rstrip_head c t H) as (r & R).
  rewrite R. cbn [Str.lstrip]. rewrite H, <- R.
  apply rstrip_idempotent.
Qed.

(** X1: blanks at either end of a line (indentation, the line feed) do
    not matter: the parse of the trimmed lines is the parse of the lines. *)
Theorem parse_lines_strip (lines : list string) :
  parse_lines (map Str.strip lines) = parse_lines lines.
Proof.
  unfold parse_lines.
  assert (R : forall st, run st (map Str.strip lines) = run st lines).
  { induction lines as [|l lines IH]; intros st; [reflexivity|].
    cbn [map run].
    assert (S : step st (Str.strip l) = step st l).
    { unfold step. now rewrite strip_idempotent. }
    rewrite S. destruct (step st l); simpl; auto. }
  now rewrite R.
Qed.

(** ** Metadata lines *)

Lemma split_max_label (line : string) :
  (Str.startswith "Date:" line = true ->
   exists rest, line = ("Date:" ++ rest)%string
                /\ Str.split_max ":" 1 line = ["Date"; rest])
  /\ (Str.startswith "Iterations:" line = true ->
      exists rest, line = ("Iterations:" ++ rest)%string
                   /\ Str.split_max ":" 1 line = ["Iterations"; rest]).
Proof.
  split; intros H.
  - do 5 (apply startswith_cons in H as (? & -> & H)).
    eexists. split; [reflexivity|].
    unfold Str.split_max. cbn.
    now rewrite split_from_no_cut by now left.
  - do 11 (apply startswith_cons in H as (? & -> & H)).
    eexists. split; [reflexivity|].
    unfold Str.split_max. cbn.
    now rewrite split_from_no_cut by now left.
Qed.

Lemma startswith_append (p s : string) : Str.startswith p (p ++ s) = true.
Proof.
  induction p as [|a p IH]; [reflexivity|].
  cbn. now rewrite Ascii.eqb_refl, IH.
Qed.

(** X2: a line that starts with [Date:] or [Iterations:] never fails.
    It stores the whole text after the first colon, trimmed and with its
    further colons, under the key [date] or [iterations]; the timing
    values, the section and the pending test name stay as they are. *)
Theorem metadata_line (st : state) (raw label k rest : string) :
  (label = "Date:" /\ k = "date") \/ (label = "Iterations:" /\ k = "iterations") ->
  Str.strip raw = (label ++ rest)%string ->
  exists st',
    step st raw = Ok st'
    /\ Dict.get k (metadata (results st')) = Some (Str.strip rest)
    /\ startup (results st') = startup (results st)
    /\ correction (results st') = correction (results st)
    /\ memory (results st') = memory (results st)
    /\ current_section st' = current_section st
    /\ current_test st' = current_test st.
Proof.
  intros [[-> ->]|[-> ->]] H.
  - assert (S : Str.startswith "Date:" (Str.strip raw) = true)
      by (rewrite H; apply startswith_append).
    destruct (proj1 (split_max_label _) S) as (rest' & E & Sp).
    rewrite H in E. cbn in E. inversion E; subst rest'; clear E.
    unfold step. rewrite S, Sp. cbn.
    eexists. split; [reflexivity|]. cbn.
    repeat split. apply get_set_same.
  - assert (S : Str.startswith "Iterations:" (Str.strip raw) = true)
      by (rewrite H; apply startswith_append).
    destruct (proj2 (split_max_label _) S) as (rest' & E & Sp).
    rewrite H in E. cbn in E. inversion E; subst rest'; clear E.
    assert (D : Str.startswith "Date:" (Str.strip raw) = false)
      by (rewrite H; reflexivity).
    unfold step. rewrite D, S, Sp. cbn.
    eexists. split; [reflexivity|]. cbn.
    repeat split. apply get_set_same.
Qed.

Lemma metadata_line_witness :
  exists st',
    step init "Date: 2024-05-01 10:30:15  " = Ok st'
    /\ Dict.get "date" (metadata (results st')) = Some (Str.strip " 2024-05-01 10:30:15")
    /\ startup (results st') = startup (results init)
    /\ correction (results st') = correction (results init)
    /\ memory (results st') = memory (results init)
    /\ current_section st' = current_section init
    /\ current_test st' = current_test init.
Proof.
  apply (metadata_line init "Date: 2024-05-01 10:30:15  " "Date:" "date"
           " 2024-05-01 10:30:15").
  - left. split; reflexivity.
  - reflexivity.
Defined.

(** ** Input without a section header *)

Lemma step_without_header (st : state) (raw : string) :
  is_header (Str.strip raw) = false ->
  current_section st = None ->
  exists st',
    step st raw = Ok st'
    /\ current_section st' = None
    /\ startup (results st') = startup (results st)
    /\ correction (results st') = correction (results st)
    /\ memory (results st') = memory (results st).
Proof.
  unfold is_header. intros H Hs.
  apply orb_false_elim in H as [H H3]. apply orb_false_elim in H as [H1 H2].
  unfold step. rewrite H1, H2, H3, Hs.
  destruct (Str.startswith "Date:" (Str.strip raw)) eqn:D.
  { destruct (proj1 (split_max_label _) D) as (rest & _ & ->).
    cbn. eexists. repeat split; assumption. }
  destruct (Str.startswith "Iterations:" (Str.strip raw)) eqn:I.
  { destruct (proj2 (split_max_label _) I) as (rest & _ & ->).
    cbn. eexists. repeat split; assumption. }
  destruct (Str.startswith "Test:" (Str.strip raw)).
  { destruct (match_test (Str.strip raw)); eexists; repeat split; assumption. }
  eexists. repeat split; assumption.
Qed.

(** X3: an input without any section header line parses without an
    exception, whatever its other lines are (labels with malformed
    numbers included), and its Report holds no timing or memory value. *)
Theorem no_header_no_data (lines : list string) :
  Forall (fun l => is_header (Str.strip l) = false) lines ->
  exists r, parse_lines lines = Ok r /\ no_data r.
Proof.
  intros F. unfold parse_lines.
  assert (R : forall st,
             current_section st = None ->
             exists st', run st lines = Ok st'
                         /\ startup (results st') = startup (results st)
                         /\ correction (results st') = correction (results st)
                         /\ memory (results st') = memory (results st)).
  { induction F as [|l lines Hl F IH]; intros st Hs.
    - exists st. repeat split.
    - destruct (step_without_header st l Hl Hs) as (st1 & E & Hs1 & A & B & C).
      destruct (IH st1 Hs1) as (st2 & E2 & A2 & B2 & C2).
      exists st2. cbn [run]. rewrite E. cbn. rewrite E2.
      repeat split; congruence. }
  destruct (R init eq_refl) as (st' & E & A & B & C).
  rewrite E. cbn. eexists. split; [reflexivity|].
  repeat split; assumption.
Qed.

Lemma no_header_no_data_witness :
  exists r,
    parse_lines ["Date: 2024-05-01"; "Test: git_push"; "Rust: not a number";
                 "startup time"; "  Python: 12 us"]
    = Ok r /\ no_data r.
Proof.
  apply no_header_no_data. repeat constructor.
Defined.

(** ** The shape of every parsed Report *)

Lemma keys_set {V : Type} (k : string) (v : V) (d : dict V) :
  Dict.keys (Dict.set k v d)
  = if Dict.mem k d then Dict.keys d else Dict.keys d ++ [k].
Proof.
  unfold Dict.mem, Dict.keys.
  induction d as [|[k' v'] d IH]; [reflexivity|].
  cbn. destruct (String.eqb k' k); [reflexivity|].
  cbn. rewrite IH. destruct (Dict.get k d); reflexivity.
Qed.

Lemma mem_false_not_in {V : Type} (k : string) (d : dict V) :
  Dict.mem k d = false -> ~ In k (Dict.keys d).
Proof.
  unfold Dict.mem, Dict.keys.
  induction d as [|[k' v'] d IH]; cbn; [tauto|].
  destruct (String.eqb_spec k' k) as [->|N]; [discriminate|].
  intros H [E|I]; [congruence | now apply IH].
Qed.

Lemma NoDup_snoc {A : Type} (x : A) (l : list A) :
  NoDup l -> ~ In x l -> NoDup (l ++ [x]).
Proof.
  induction 1 as [|y l Hy Hl IH]; intros Hx; cbn.
  - constructor; [tauto | constructor].
  - constructor.
    + rewrite in_app_iff. cbn. intros [I|[E|[]]]; [tauto|].
      apply Hx. now left.
    + apply IH. intros I. apply Hx. now right.
Qed.

Lemma NoDup_keys_set {V : Type} (k : string) (v : V) (d : dict V) :
  NoDup (Dict.keys d) -> NoDup (Dict.keys (Dict.set k v d)).
Proof.
  intros N. rewrite keys_set.
  destruct (Dict.mem k d) eqn:M; [exact N|].
  apply NoDup_snoc; [exact N | now apply mem_false_not_in].
Qed.

Lemma keys_among_set {V : Type} (allowed : list string) (k : string) (v : V)
      (d : dict V) :
  In k allowed -> keys_among allowed d -> keys_among allowed (Dict.set k v d).
Proof.
  intros Hk [N F]. split; [now apply NoDup_keys_set|].
  rewrite keys_set. destruct (Dict.mem k d); [exact F|].
  apply Forall_app. split; [exact F | now constructor].
Qed.

Lemma keys_among_nil {V : Type} (allowed : list string) :
  keys_among allowed (@nil (string * V)).
Proof. split; constructor. Qed.

Lemma keys_among_length {V : Type} (allowed : list string) (d : dict V) :
  keys_among allowed d -> List.length d <= List.length allowed.
Proof.
  intros [N F]. unfold Dict.keys in *.
  rewrite <- (length_map fst d).
  apply NoDup_incl_length; [exact N|].
  intros k I. rewrite Forall_forall in F. now apply F.
Qed.

Lemma set_nonempty {V : Type} (k : string) (v : V) (d : dict V) :
  Dict.set k v d <> [].
Proof. destruct d as [|[k' v'] d]; cbn; [|destruct (String.eqb k' k)]; discriminate. Qed.

Lemma Forall_set {V : Type} (P : string * V -> Prop) (k : string) (v : V)
      (d : dict V) :
  Forall P d -> P (k, v) -> Forall P (Dict.set k v d).
Proof.
  intros F Hk. induction F as [|[k' v'] d Hx F IH]; cbn.
  - now constructor.
  - destruct (String.eqb_spec k' k) as [->|N]; constructor; auto.
Qed.

Lemma get_in {V : Type} (k : string) (v : V) (d : dict V) :
  Dict.get k d = Some v -> In (k, v) d.
Proof.
  induction d as [|[k' v'] d IH]; cbn; [discriminate|].
  destruct (String.eqb_spec k' k) as [->|N].
  - intros [= ->]. now left.
  - intros H. right. now apply IH.
Qed.

Lemma all_word_take_word (s : string) : all_word (Str.take_word s) = true.
Proof.
  induction s as [|c s IH]; [reflexivity|].
  cbn. destruct (Str.is_word c) eqn:E; [|reflexivity].
  cbn. now rewrite E.
Qed.

Lemma match_test_name (line t : string) :
  match_test line = Some t -> test_name t.
Proof.
  unfold match_test.
  destruct (Str.startswith "Test: " line); [|discriminate].
  pose proof (all_word_take_word (Str.drop 6 line)) as W.
  destruct (Str.take_word (Str.drop 6 line)) eqn:E; [discriminate|].
  intros [= <-]. split; [discriminate | exact W].
Qed.

Lemma store_correction_transition (k value : string) (st st' : state) :
  In k labels ->
  store_correction k value st = Ok st' -> transition st st'.
Proof.
  intros Hk H. unfold store_correction in H. bind_ok H. bind_ok H.
  injection H as <-. apply t_correction; [exact Hk|].
  unfold read_test in E0. destruct (current_test st); congruence.
Qed.

Lemma timing_line_transition (sec : section) (line : string) (st st' : state) :
  current_section st = Some sec ->
  timing_line sec line st = Ok st' -> transition st st'.
Proof.
  intros Hs.
  assert (A : forall k, In k labels -> store_anchored sec k line st = Ok st' ->
                        transition st st').
  { intros k Hk H. unfold store_anchored in H. bind_ok H.
    destruct sec.
    - bind_ok H. injection H as <-. now apply t_startup.
    - now apply store_correction_transition in H.
    - bind_ok H. injection H as <-. now apply t_memory. }
  assert (I : forall label k, In k labels -> store_inline label k line st = Ok st' ->
                              transition st st').
  { intros label k Hk H. unfold store_inline in H. bind_ok H.
    now apply store_correction_transition in H. }
  unfold timing_line.
  repeat match goal with
         | |- context [if ?b then _ else _] => destruct b
         end;
    try (intros H;
         first [eapply A; [|exact H] | eapply I; [|exact H]]; cbn; tauto).
  intros [= <-]. constructor.
Qed.

(** Every line that does not raise acts on the state in one of seven ways. *)
Lemma step_transition (st st' : state) (raw : string) :
  step st raw = Ok st' -> transition st st'.
Proof.
  unfold step. set (line := Str.strip raw).
  destruct (Str.startswith "Date:" line).
  { intros H. bind_ok H. injection H as <-. apply t_metadata. cbn. tauto. }
  destruct (Str.startswith "Iterations:" line).
  { intros H. bind_ok H. injection H as <-. apply t_metadata. cbn. tauto. }
  destruct (String.eqb line "STARTUP TIME"); [intros [= <-]; constructor|].
  destruct (String.eqb line "CORRECTION TIME"); [intros [= <-]; constructor|].
  destruct (String.eqb line "MEMORY USAGE"); [intros [= <-]; constructor|].
  destruct (Str.startswith "Test:" line).
  { destruct (match_test line) as [t|] eqn:M; intros [= <-].
    - apply t_test. now apply match_test_name in M.
    - constructor. }
  destruct (current_section st) as [sec|] eqn:Hs.
  - now apply timing_line_transition.
  - intros [= <-]. constructor.
Qed.

Lemma transition_ok (st st' : state) :
  transition st st' -> state_ok st -> state_ok st'.
Proof.
  intros T [(S & M & D & C) Ht].
  destruct T as [|k v Hk|sec|t Hn|k v Hk _|k v Hk _|t k v Hk Hc]; cbn.
  - now split.
  - split; [|exact Ht].
    split; [exact S|]. split; [exact M|]. split; [|exact C].
    now apply keys_among_set.
  - now split.
  - split; [now split|]. cbn. now intros ? [= <-].
  - split; [|exact Ht].
    split; [now apply keys_among_set|]. now split.
  - split; [|exact Ht].
    split; [exact S|]. split; [now apply keys_among_set|]. now split.
  - split; [|exact Ht]. unfold well_formed. cbn.
    split; [exact S|]. split; [exact M|]. split; [exact D|].
    unfold set_inner.
    set (c := match correction (results st) with Some c => c | None => [] end).
    assert (Wc : NoDup (Dict.keys c) /\ Forall entry_ok c).
    { unfold c. destruct (correction (results st)).
      - tauto.
      - split; constructor. }
    destruct Wc as [Nc Fc].
    split; [apply set_nonempty|]. split; [now apply NoDup_keys_set|].
    apply Forall_set; [exact Fc|].
    split; [cbn; now apply Ht|]. split; [apply set_nonempty|]. cbn.
    apply keys_among_set; [exact Hk|].
    destruct (Dict.get t c) as [inner|] eqn:G; [|apply keys_among_nil].
    apply get_in in G. rewrite Forall_forall in Fc.
    now destruct (Fc _ G) as (_ & _ & K).
Qed.

Lemma run_ok (lines : list string) (st st' : state) :
  run st lines = Ok st' -> state_ok st -> state_ok st'.
Proof.
  revert st. induction lines as [|l lines IH]; intros st H W; cbn in H.
  - now injection H as <-.
  - bind_ok H. apply (IH _ H).
    apply (transition_ok st); [now apply (step_transition _ _ l) | exact W].
Qed.

Lemma init_ok : state_ok init.
Proof.
  split; [|discriminate].
  split; [apply keys_among_nil|]. split; [apply keys_among_nil|].
  split; [apply keys_among_nil | exact I].
Qed.

(** X4: every Report that [parse_results] returns has the same shape.
    The startup and memory mappings have distinct keys among ["rust"] and
    ["python"], so at most two entries; the metadata has keys among
    ["date"] and ["iterations"]; [correction.corrections], when present,
    is not empty, has distinct test names that are non-empty words, and
    maps each to a mapping with one or two entries under the same two
    labels. *)
Theorem parsed_report_shape (lines : list string) (r : Report) :
  parse_lines lines = Ok r ->
  well_formed r
  /\ List.length (startup r) <= 2
  /\ List.length (memory r) <= 2
  /\ (forall c t inner,
         correction r = Some c -> In (t, inner) c ->
         1 <= List.length inner <= 2).
Proof.
  unfold parse_lines. intros H. bind_ok H. injection H as <-.
  destruct (run_ok _ _ _ E init_ok) as [W _].
  split; [exact W|].
  destruct W as (S & M & _ & C).
  split; [apply (keys_among_length labels _ S)|].
  split; [apply (keys_among_length labels _ M)|].
  intros c t inner Hc I. rewrite Hc in C. destruct C as (_ & _ & F).
  rewrite Forall_forall in F. destruct (F _ I) as (_ & N & K).
  cbn in N, K. apply keys_among_length in K. cbn in K.
  split; [|exact K]. destruct inner; [congruence | cbn; lia].
Qed.

Lemma parsed_report_shape_witness :
  let r := {| startup := [("rust", Float.of_Z 1000)];
              correction := Some [("git_push", [("python", Float.of_Z 7)])];
              memory := []; metadata := [("iterations", "10")] |} in
  well_formed r
  /\ List.length (startup r) <= 2
  /\ List.length (memory r) <= 2
  /\ (forall c t inner,
         correction r = Some c -> In (t, inner) c ->
         1 <= List.length inner <= 2).
Proof.
  intros r.
  apply (parsed_report_shape
           ["Iterations: 10"; "STARTUP TIME"; "Rust: 1000 us";
            "CORRECTION TIME"; "Test: git_push"; "Python: 7 us"]).
  reflexivity.
Defined.

(** ** The exceptions of the parser *)

Lemma index_raise {A : Type} (xs : list A) (i : nat) (e : exn) :
  index xs i = Raise e -> e = IndexError.
Proof. unfold index. destruct (nth_error xs i); now intros [= <-]. Qed.

Lemma token_raise (p : result string) (e : exn) :
  (forall e', p = Raise e' -> e' = IndexError) ->
  (q <- p ;; index (Str.words (Str.strip q)) 0) = Raise e -> e = IndexError.
Proof.
  intros Hp. destruct p as [q|e']; cbn.
  - apply index_raise.
  - intros [= <-]. now apply Hp.
Qed.

Lemma store_correction_raise (k value : string) (st : state) (e : exn) :
  store_correction k value st = Raise e -> parser_exn e.
Proof.
  unfold store_correction, py_float, read_test, parser_exn.
  destruct (Float.of_string value); cbn; [|intros [= <-]; tauto].
  destruct (current_test st); cbn; [discriminate | intros [= <-]; tauto].
Qed.

Lemma timing_line_raise (sec : section) (line : string) (st : state) (e : exn) :
  timing_line sec line st = Raise e -> parser_exn e.
Proof.
  assert (A : forall k, store_anchored sec k line st = Raise e -> parser_exn e).
  { intros k. unfold store_anchored.
    destruct (anchored_value line) as [value|e'] eqn:V; cbn.
    - destruct sec; try apply store_correction_raise;
        unfold py_float; destruct (Float.of_string value); cbn;
        try discriminate; intros [= <-]; unfold parser_exn; tauto.
    - intros [= <-]. unfold anchored_value in V.
      apply token_raise in V; [unfold parser_exn; tauto|].
      intros ?. apply index_raise. }
  assert (I : forall label k, store_inline label k line st = Raise e -> parser_exn e).
  { intros label k. unfold store_inline.
    destruct (inline_value label line) as [value|e'] eqn:V; cbn.
    - apply store_correction_raise.
    - intros [= <-]. unfold inline_value in V.
      apply token_raise in V; [unfold parser_exn; tauto|].
      intros ?. apply index_raise. }
  unfold timing_line.
  repeat match goal with
         | |- context [if ?b then _ else _] => destruct b
         end; eauto; discriminate.
Qed.

Lemma step_raise (st : state) (raw : string) (e : exn) :
  step st raw = Raise e -> parser_exn e.
Proof.
  unfold step. set (line := Str.strip raw).
  destruct (Str.startswith "Date:" line) eqn:D.
  { destruct (proj1 (split_max_label _) D) as (rest & _ & ->). discriminate. }
  destruct (Str.startswith "Iterations:" line) eqn:I.
  { destruct (proj2 (split_max_label _) I) as (rest & _ & ->). discriminate. }
  destruct (String.eqb line "STARTUP TIME"); [discriminate|].
  destruct (String.eqb line "CORRECTION TIME"); [discriminate|].
  destruct (String.eqb line "MEMORY USAGE"); [discriminate|].
  destruct (Str.startswith "Test:" line).
  { destruct (match_test line); discriminate. }
  destruct (current_section st) as [sec|]; [|discriminate].
  apply timing_line_raise.
Qed.

Lemma run_raise (lines : list string) (st : state) (e : exn) :
  run st lines = Raise e -> parser_exn e.
Proof.
  revert st. induction lines as [|l lines IH]; intros st; cbn; [discriminate|].
  destruct (step st l) as [st1|e1] eqn:S; cbn.
  - apply IH.
  - intros [= <-]. now apply step_raise in S.
Qed.

(** X5: once the file has been opened and decoded, the only exceptions
    that [parse_results] can raise are [ValueError] (a token that is no
    number), [IndexError] (no token after the label) and
    [UnboundLocalError] (no test name yet). *)
Theorem parsing_exceptions
        (fs : filesystem) (filepath text : string) (e : exn) :
  fs filepath = Regular (Some text) ->
  parse_results fs filepath = Raise e ->
  parser_exn e.
Proof.
  unfold parse_results, open, read, parse_lines. intros ->. cbn.
  destruct (run init (readlines text)) as [st|e'] eqn:R; cbn; [discriminate|].
  intros [= <-]. now apply run_raise in R.
Qed.

Lemma parsing_exceptions_witness : parser_exn IndexError.
Proof.
  apply (parsing_exceptions
           (fun _ => Regular (Some "STARTUP TIME
Rust:
")) "results.txt" "STARTUP TIME
Rust:
" IndexError); reflexivity.
Defined.




(** ** The section and the test name in force *)

Lemma timing_line_section (sec : section) (line : string) (st st' : state) :
  timing_line sec line st = Ok st' -> current_section st' = current_section st.
Proof.
  assert (C : forall k value, store_correction k value st = Ok st' ->
                              current_section st' = current_section st).
  { intros k value H. unfold store_correction in H. bind_ok H. bind_ok H.
    now injection H as <-. }
  assert (A : forall k, store_anchored sec k line st = Ok st' ->
                        current_section st' = current_section st).
  { intros k H. unfold store_anchored in H. bind_ok H.
    destruct sec; try (now apply C in H);
      bind_ok H; now injection H as <-. }
  assert (I : forall label k, store_inline label k line st = Ok st' ->
                              current_section st' = current_section st).
  { intros label k H. unfold store_inline in H. bind_ok H. now apply C in H. }
  unfold timing_line.
  repeat match goal with
         | |- context [if ?b then _ else _] => destruct b
         end; eauto.
  now intros [= <-].
Qed.

Lemma step_current_section (st st' : state) (raw : string) :
  step st raw = Ok st' ->
  current_section st' =
  match header_section (Str.strip raw) with
  | Some h => Some h
  | None => current_section st
  end.
Proof.
  unfold step, header_section. set (line := Str.strip raw).
  destruct (Str.startswith "Date:" line) eqn:D.
  { apply startswith_cons in D as (s & -> & _).
    intros H. bind_ok H. injection H as <-. reflexivity. }
  destruct (Str.startswith "Iterations:" line) eqn:I.
  { apply startswith_cons in I as (s & -> & _).
    intros H. bind_ok H. injection H as <-. reflexivity. }
  destruct (String.eqb line "STARTUP TIME"); [now intros [= <-]|].
  destruct (String.eqb line "CORRECTION TIME"); [now intros [= <-]|].
  destruct (String.eqb line "MEMORY USAGE"); [now intros [= <-]|].
  destruct (Str.startswith "Test:" line).
  { destruct (match_test line); now intros [= <-]. }
  destruct (current_section st) as [sec|] eqn:Hs.
  - intros H. apply timing_line_section in H. congruence.
  - now intros [= <-].
Qed.

(** X7: after any lines that parse, the section in force is that of
    the last section header among them (the one before them when there is
    none), and the pending test name is that of the last [Test:] marker
    with a word (the one before them when there is none): nothing else
    changes either. *)
Theorem run_section_and_test (lines : list string) (st st' : state) :
  run st lines = Ok st' ->
  current_section st' = final_section (current_section st) lines
  /\ current_test st' = final_test (current_test st) lines.
Proof.
  revert st. induction lines as [|l lines IH]; intros st H; cbn in H.
  - injection H as <-. split; reflexivity.
  - bind_ok H. destruct (IH _ H) as [S T].
    unfold final_section, final_test in *. cbn [fold_left].
    rewrite <- (step_current_section _ _ _ E).
    rewrite <- (step_current_test _ _ _ E).
    now split.
Qed.

Lemma run_section_and_test_witness :
  let st' := {| results :=
                  {| startup := [("rust", Float.of_Z 5)]; correction := None;
                     memory := []; metadata := [] |};
                current_section := Some Memory;
                current_test := Some "cd_typo" |} in
  current_section st'
  = final_section (current_section init)
      ["STARTUP TIME"; "Test: git_push"; "Rust: 5 us"; "Test: cd_typo"; "MEMORY USAGE"]
  /\ current_test st'
     = final_test (current_test init)
         ["STARTUP TIME"; "Test: git_push"; "Rust: 5 us"; "Test: cd_typo"; "MEMORY USAGE"].
Proof.
  intros st'.
  apply (run_section_and_test
           ["STARTUP TIME"; "Test: git_push"; "Rust: 5 us"; "Test: cd_typo"; "MEMORY USAGE"]
           init st').
  reflexivity.
Defined.

(** * Further properties of the renderers *)

(** ** The axes of the summary chart *)

Lemma pos_not_zero (x : float) : Float.pos x = true -> Float.is_zero x = false.
Proof. destruct x as [s|s| |s m e]; try reflexivity. destruct s; discriminate. Qed.

Lemma correction_axes_ok (c : dict (dict float)) :
  exists cats sp,
    correction_axes c = Ok (cats, sp)
    /\ List.length cats = List.length sp
    /\ List.length cats <= List.length c.
Proof.
  induction c as [|[test data] c (cats & sp & E & L & B)]; cbn.
  - exists [], []. repeat split; reflexivity.
  - destruct (both data && Float.pos (item "rust" data)) eqn:G.
    + apply andb_prop in G as [_ P]. apply pos_not_zero in P.
      unfold ratio, Float.div. rewrite P, E. cbn.
      do 2 eexists. split; [reflexivity|]. cbn. split; lia.
    + exists cats, sp. repeat split; auto.
Qed.

(** X8: the axes of the summary chart.  Computing them raises
    [ZeroDivisionError] exactly when the startup mapping has both
    implementations and a rust value of zero; otherwise there are as many
    ratios as categories, at most one per test case plus two. *)
Theorem radar_axes_outcome (r : Report) :
  match radar_axes r with
  | Raise e => e = ZeroDivisionError /\ zero_rust (startup r) = true
  | Ok (cats, sp) =>
      zero_rust (startup r) = false
      /\ List.length cats = List.length sp
      /\ List.length cats <= List.length (corrections_of r) + 2
  end.
Proof.
  unfold radar_axes, zero_rust, ratio, Float.div.
  destruct (correction_axes_ok (corrections_of r)) as (cats & sp & E & L & B).
  assert (A2 : exists c2 s2,
             (if Dict.nonempty (corrections_of r)
              then correction_axes (corrections_of r) else Ok ([], []))
             = Ok (c2, s2)
             /\ List.length c2 = List.length s2
             /\ List.length c2 <= List.length (corrections_of r)).
  { destruct (Dict.nonempty (corrections_of r)).
    - eauto.
    - exists [], []. repeat split; cbn; lia. }
  destruct A2 as (c2 & s2 & -> & L2 & B2).
  assert (A3 : exists c3 s3,
             (if both (memory r) && Float.pos (item "rust" (memory r))
              then s <- (if Float.is_zero (item "rust" (memory r))
                         then Raise ZeroDivisionError
                         else Ok (Float.quot (item "python" (memory r))
                                             (item "rust" (memory r)))) ;;
                   Ok ([("Memory" ++ nl ++ "(lower is better)")%string], [s])
              else Ok ([], []))
             = Ok (c3, s3)
             /\ List.length c3 = List.length s3 /\ List.length c3 <= 1).
  { destruct (both (memory r) && Float.pos (item "rust" (memory r))) eqn:G.
    - apply andb_prop in G as [_ P]. apply pos_not_zero in P. rewrite P. cbn.
      do 2 eexists. repeat split; cbn; lia.
    - exists [], []. repeat split; cbn; lia. }
  destruct A3 as (c3 & s3 & -> & L3 & B3).
  destruct (both (startup r)); cbn.
  - destruct (Float.is_zero (item "rust" (startup r))); cbn; [now split|].
    split; [reflexivity|]. rewrite !length_app, L2, L3. lia.
  - split; [reflexivity|]. rewrite !length_app, L2, L3. lia.
Qed.

(** ** The files of the graphical renderer *)

Lemma draws_ret : draws (ret tt).
Proof. intros w. exists (axes w). now destruct w. Qed.

Lemma draws_call (d : draw) : draws (call d).
Proof. intros w. eexists. reflexivity. Qed.

Lemma draws_subplots : draws subplots.
Proof. intros w. eexists. reflexivity. Qed.

Lemma draws_seq (m k : io Plt.world unit) :
  draws m -> draws k -> draws (m >> k).
Proof.
  intros Hm Hk w. destruct (Hm w) as (ax & E).
  unfold iobind. rewrite E. destruct (Hk {| axes := ax; files := files w |}) as (ax' & E').
  rewrite E'. eexists. reflexivity.
Qed.

Lemma draws_lift {A : Type} (m : result A) (a : A) (k : A -> io Plt.world unit) :
  m = Ok a -> draws (k a) -> draws (iobind (lift m) k).
Proof. intros -> Hk w. unfold iobind, lift. apply Hk. Qed.

Lemma draws_when (c : bool) (m : io Plt.world unit) :
  (c = true -> draws m) -> draws (when c m).
Proof. destruct c; cbn; [auto | intros _; apply draws_ret]. Qed.

Lemma draws_for_each {A : Type} (xs : list A) (f : A -> io Plt.world unit) :
  (forall x, draws (f x)) -> draws (for_each xs f).
Proof.
  intros Hf. induction xs as [|x xs IH]; cbn.
  - apply draws_ret.
  - apply draws_seq; auto.
Qed.

Lemma writes_savefig (name : string) (m : io Plt.world unit) :
  draws m -> writes [name] (Ok tt) (m >> savefig name).
Proof.
  intros Hm w. destruct (Hm w) as (ax & E).
  unfold iobind. rewrite E. cbn. eexists. split; [reflexivity|].
  cbn. now rewrite map_app.
Qed.

Lemma writes_draws (m : io Plt.world unit) : draws m -> writes [] (Ok tt) m.
Proof.
  intros Hm w. destruct (Hm w) as (ax & E). rewrite E.
  eexists. split; [reflexivity|]. cbn. now rewrite app_nil_r.
Qed.

Lemma writes_seq (l1 l2 : list string) (res : result unit)
      (m k : io Plt.world unit) :
  writes l1 (Ok tt) m -> writes l2 res k -> writes (l1 ++ l2) res (m >> k).
Proof.
  intros Hm Hk w. destruct (Hm w) as (w1 & E1 & F1).
  destruct (Hk w1) as (w2 & E2 & F2).
  unfold iobind. rewrite E1, E2. exists w2. split; [reflexivity|].
  now rewrite F2, F1, app_assoc.
Qed.

Lemma max_cons (x : float) (xs : list float) :
  exists top, py_max (x :: xs) = Ok top.
Proof. unfold py_max. cbn. eexists. reflexivity. Qed.

Lemma draws_callout (values : list float) (suffix : string) :
  draws (callout values suffix).
Proof.
  unfold callout.
  destruct values as [|a [|b [|c values]]]; try apply draws_ret.
  apply draws_when. intros P.
  eapply draws_lift.
  - unfold Float.div. rewrite (pos_not_zero _ P). reflexivity.
  - apply draws_call.
Qed.

Lemma lang_bars_times (scale : float -> float) (d : dict float) :
  Dict.nonempty d = true -> labelled d = true ->
  exists langs x xs colors, lang_bars scale d = (langs, x :: xs, colors).
Proof.
  unfold labelled, lang_bars. intros N L. rewrite N in L. cbn in L.
  destruct (Dict.mem "rust" d); destruct (Dict.mem "python" d);
    try discriminate; cbn; do 4 eexists; reflexivity.
Qed.

Lemma draws_set_ylim (top : float) :
  Float.is_finite top = true -> draws (set_ylim top).
Proof. unfold set_ylim. intros ->. apply draws_call. Qed.

(** The limit that [finite_limits] speaks of is the one handed to
    [set_ylim]. *)
Lemma finite_limits_top (scale : float -> float) (d : dict float)
      (langs colors : list string) (heights : list float) :
  lang_bars scale d = (langs, heights, colors) ->
  finite_limits scale d = true ->
  forall top, py_max heights = Ok top ->
  Float.is_finite (Float.mul top (Float.of_decimal false 12 (-1))) = true.
Proof.
  unfold finite_limits, py_max. intros -> F top T.
  apply andb_prop in F as [F _].
  destruct (Float.max heights) as [m|]; [|discriminate].
  injection T as <-. exact F.
Qed.

Lemma draws_bars (title ylabel unit_ suffix : string) (langs colors : list string)
      (x : float) (xs : list float) :
  (forall top, py_max (x :: xs) = Ok top ->
     Float.is_finite (Float.mul top (Float.of_decimal false 12 (-1))) = true) ->
  draws (call (Bar langs (x :: xs) colors) >>
         for_each (x :: xs)
           (fun v => call (Annotate (Float.format_1f v ++ unit_)%string)) >>
         call (SetYLabel ylabel) >>
         call (SetTitle title) >>
         (top <~ lift (py_max (x :: xs)) ;;
          set_ylim (Float.mul top (Float.of_decimal false 12 (-1))) >>
          callout (x :: xs) suffix)).
Proof.
  intros F. destruct (max_cons x xs) as (top & T).
  apply draws_seq; [apply draws_call|].
  apply draws_seq; [apply draws_for_each; intros; apply draws_call|].
  apply draws_seq; [apply draws_call|].
  apply draws_seq; [apply draws_call|].
  eapply draws_lift; [exact T|].
  apply draws_seq; [apply draws_set_ylim, F, T | apply draws_callout].
Qed.

Lemma startup_chart_writes (r : Report) :
  labelled (startup r) = true ->
  finite_limits (fun v => Float.quot v f1000) (startup r) = true ->
  writes ["startup_time.png"] (Ok tt) (startup_chart r).
Proof.
  intros L F. unfold startup_chart.
  change ["startup_time.png"] with ([] ++ ["startup_time.png"]).
  apply writes_seq; [apply writes_draws, draws_subplots|].
  apply writes_savefig. apply draws_when. intros N.
  destruct (lang_bars_times (fun v => Float.quot v f1000) _ N L)
    as (langs & x & xs & colors & E).
  rewrite E. apply draws_bars. exact (finite_limits_top _ _ _ _ _ E F).
Qed.

Lemma writes_after_draws (l : list string) (res : result unit)
      (m k : io Plt.world unit) :
  draws m -> writes l res k -> writes l res (m >> k).
Proof.
  intros Hm Hk. change l with ([] ++ l).
  apply writes_seq; [now apply writes_draws | exact Hk].
Qed.

Lemma draws_label_bars (heights : list float) : draws (label_bars heights).
Proof.
  apply draws_for_each. intros h. apply draws_when. intros _. apply draws_call.
Qed.

Lemma correction_chart_writes (r : Report) :
  writes (if Dict.nonempty (corrections_of r) then ["correction_time.png"] else [])
         (Ok tt) (correction_chart r).
Proof.
  unfold correction_chart.
  destruct (Dict.nonempty (corrections_of r)); cbn [when].
  - cbv zeta.
    apply writes_after_draws; [apply draws_subplots|].
    apply writes_after_draws; [apply draws_call|].
    apply writes_after_draws; [apply draws_call|].
    apply writes_after_draws; [apply draws_label_bars|].
    apply writes_after_draws; [apply draws_label_bars|].
    apply writes_after_draws; [apply draws_call|].
    apply writes_after_draws; [apply draws_call|].
    apply writes_after_draws; [apply draws_call|].
    apply writes_after_draws; [apply draws_call|].
    apply writes_after_draws; [apply draws_call|].
    apply writes_savefig. apply draws_call.
  - apply writes_draws, draws_ret.
Qed.

Lemma memory_chart_writes (r : Report) :
  labelled (memory r) = true ->
  finite_limits (fun v => v) (memory r) = true ->
  writes (if Dict.nonempty (memory r) then ["memory_usage.png"] else [])
         (Ok tt) (memory_chart r).
Proof.
  intros L F. unfold memory_chart.
  destruct (Dict.nonempty (memory r)) eqn:N; cbn [when].
  - apply writes_after_draws; [apply draws_subplots|].
    destruct (lang_bars_times (fun v => v) _ N L)
      as (langs & x & xs & colors & E).
    rewrite E.
    destruct (max_cons x xs) as (top & T).
    apply writes_after_draws; [apply draws_call|].
    apply writes_after_draws; [apply draws_for_each; intros; apply draws_call|].
    apply writes_after_draws; [apply draws_call|].
    apply writes_after_draws; [apply draws_call|].
    apply writes_savefig.
    eapply draws_lift; [exact T|].
    apply draws_seq; [|apply draws_callout].
    apply draws_set_ylim. exact (finite_limits_top _ _ _ _ _ E F top T).
  - apply writes_draws, draws_ret.
Qed.

Lemma writes_lift_ok {A : Type} (l : list string) (res : result unit) (a : A)
      (k : A -> io Plt.world unit) :
  writes l res (k a) -> writes l res (iobind (lift (Ok a)) k).
Proof. intros H w. exact (H w). Qed.

Lemma writes_lift_raise {A : Type} (e : exn) (k : A -> io Plt.world unit) :
  writes [] (Raise e) (iobind (lift (Raise e)) k).
Proof.
  intros w. exists w. split; [reflexivity|]. now rewrite app_nil_r.
Qed.

Lemma summary_chart_writes (r : Report) :
  writes (match radar_axes r with
          | Ok (_ :: _, _) => ["summary_radar.png"]
          | _ => []
          end)
         (match radar_axes r with
          | Ok _ => Ok tt
          | Raise e => Raise e
          end)
         (summary_chart r).
Proof.
  unfold summary_chart.
  apply writes_after_draws; [apply draws_subplots|].
  destruct (radar_axes r) as [[cats sp]|e]; [|apply writes_lift_raise].
  apply writes_lift_ok.
  destruct cats as [|c cats]; cbn [when].
  - apply writes_draws, draws_ret.
  - cbv zeta.
    apply writes_after_draws; [apply draws_call|].
    apply writes_after_draws; [apply draws_call|].
    apply writes_after_draws; [apply draws_call|].
    apply writes_after_draws; [apply draws_call|].
    apply writes_after_draws; [apply draws_call|].
    apply writes_savefig. apply draws_call.
Qed.

Lemma keys_among_labelled (d : dict float) :
  keys_among labels d -> labelled d = true.
Proof.
  intros [_ F]. destruct d as [|[k v] d]; [reflexivity|].
  inversion F as [|? ? Hk _]; subst.
  unfold labelled, Dict.mem. cbn.
  destruct Hk as [<-|[<-|[]]]; cbn; [reflexivity|].
  destruct (Dict.get "rust" d); reflexivity.
Qed.

(** Every mapping of a parsed Report is labelled. *)
Lemma parsed_labelled (lines : list string) (r : Report) :
  parse_lines lines = Ok r ->
  labelled (startup r) = true /\ labelled (memory r) = true.
Proof.
  intros H. destruct (parsed_report_shape _ _ H) as ((S & M & _) & _).
  split; now apply keys_among_labelled.
Qed.

(** X9: what the graphical renderer does with a Report all of whose
    plotted numbers are finite (the values, the upper limits of the axes
    and the ratios) and whose startup and memory mappings, when not empty,
    have a value for one of the two implementations (as every parsed Report
    has).  It raises [ZeroDivisionError] when the startup mapping has both
    implementations and a rust value of zero, and nothing else; it writes
    the startup chart first, then the correction chart when there are test
    cases, then the memory chart when the memory mapping is not empty, and
    last the summary chart when it has an axis.  A limit that is infinite
    or not a number is refused by [set_ylim] before the chart is saved:
    such Reports are outside the statement. *)
Theorem graphical_renderer_outcome (r : Report) :
  plottable r = true ->
  labelled (startup r) = true ->
  labelled (memory r) = true ->
  snd (generate_matplotlib_charts r start)
  = (if zero_rust (startup r) then Raise ZeroDivisionError else Ok tt)
  /\ charts_written r
     = "startup_time.png"
       :: (if Dict.nonempty (corrections_of r) then ["correction_time.png"] else [])
       ++ (if Dict.nonempty (memory r) then ["memory_usage.png"] else [])
       ++ (match radar_axes r with
           | Ok (_ :: _, _) => ["summary_radar.png"]
           | _ => []
           end).
Proof.
  intros P Ls Lm.
  unfold plottable in P.
  apply andb_prop in P as [P _].
  apply andb_prop in P as [P Fm].
  apply andb_prop in P as [_ Fs].
  pose proof (writes_seq _ _ _ _ _ (startup_chart_writes r Ls Fs)
               (writes_seq _ _ _ _ _ (correction_chart_writes r)
                  (writes_seq _ _ _ _ _ (memory_chart_writes r Lm Fm)
                     (summary_chart_writes r)))) as W.
  destruct (W start) as (w' & E & F).
  unfold charts_written. fold (generate_matplotlib_charts r) in E.
  rewrite E. cbn [fst snd]. split; [|exact F].
  pose proof (radar_axes_outcome r) as O.
  destruct (radar_axes r) as [[cats sp]|e].
  - destruct O as (-> & _). reflexivity.
  - destruct O as (-> & ->). reflexivity.
Qed.

Lemma graphical_renderer_outcome_witness :
  let r := {| startup := [("rust", Float.of_Z 1000); ("python", Float.of_Z 52000)];
              correction := Some [("git_push", [("rust", Float.of_Z 1500)])];
              memory := [("python", Float.of_Z 40)];
              metadata := [] |} in
  snd (generate_matplotlib_charts r start)
  = (if zero_rust (startup r) then Raise ZeroDivisionError else Ok tt)
  /\ charts_written r
     = "startup_time.png"
       :: (if Dict.nonempty (corrections_of r) then ["correction_time.png"] else [])
       ++ (if Dict.nonempty (memory r) then ["memory_usage.png"] else [])
       ++ (match radar_axes r with
           | Ok (_ :: _, _) => ["summary_radar.png"]
           | _ => []
           end).
Proof.
  intros r. apply (graphical_renderer_outcome r); reflexivity.
Defined.

(** ** The text renderer *)

Lemma fails_first {W A B : Type} (m : io W A) (k : A -> io W B) :
  fails m -> fails (iobind m k).
Proof.
  intros H w. destruct (H w) as (e & E). exists e.
  unfold iobind. destruct (m w) as [w' [a|e']]; cbn in *; congruence.
Qed.

Lemma fails_then {W A B : Type} (m : io W A) (k : A -> io W B) :
  (forall a, fails (k a)) -> fails (iobind m k).
Proof.
  intros H w. unfold iobind. destruct (m w) as [w' [a|e']].
  - apply H.
  - exists e'. reflexivity.
Qed.

Lemma fails_lift {W A B : Type} (m : result A) (e : exn) (k : A -> io W B) :
  m = Raise e -> fails (iobind (lift m) k).
Proof. intros -> w. exists e. reflexivity. Qed.

Lemma zero_rust_ratio (d : dict float) :
  zero_rust d = true ->
  both d = true /\ Dict.nonempty d = true /\ ratio d = Raise ZeroDivisionError.
Proof.
  unfold zero_rust, ratio, Float.div. intros H.
  apply andb_prop in H as [B Z]. rewrite Z.
  repeat split; [exact B|]. destruct d; [discriminate | reflexivity].
Qed.

Lemma startup_text_fails (r : Report) :
  zero_rust (startup r) = true -> fails (startup_text r).
Proof.
  intros H. apply zero_rust_ratio in H as (B & N & R).
  unfold startup_text. rewrite N, B. cbn [when].
  apply fails_then; intros _. apply fails_then; intros _.
  apply fails_first.
  apply fails_then; intros max_time. apply fails_then; intros _.
  now apply (fails_lift _ ZeroDivisionError).
Qed.

Lemma memory_text_fails (r : Report) :
  zero_rust (memory r) = true -> fails (memory_text r).
Proof.
  intros H. apply zero_rust_ratio in H as (B & N & R).
  unfold memory_text. rewrite N, B. cbn [when].
  apply fails_then; intros _. apply fails_then; intros _.
  apply fails_then; intros max_mem. apply fails_then; intros _.
  now apply (fails_lift _ ZeroDivisionError).
Qed.

(** X10: the text renderer cannot complete on a Report whose startup
    mapping, or whose memory mapping, has both implementations and a rust
    value of zero: whatever the state of the output file, the call ends in
    an exception instead of returning. *)
Theorem text_renderer_zero_rust (r : Report) (w : Txt.world) :
  zero_rust (startup r) || zero_rust (memory r) = true ->
  exists e, snd (generate_text_charts r w) = Raise e.
Proof.
  intros H. revert w. change (fails (generate_text_charts r)).
  unfold generate_text_charts.
  apply fails_then; intros _. apply fails_then; intros _.
  apply fails_then; intros _.
  apply orb_prop in H as [H|H].
  - apply fails_first. now apply startup_text_fails.
  - apply fails_then; intros _. apply fails_then; intros _.
    apply fails_first. now apply memory_text_fails.
Qed.

Lemma text_renderer_zero_rust_witness :
  exists e, snd (generate_text_charts zero_memory_report EmptyString) = Raise e.
Proof.
  apply (text_renderer_zero_rust zero_memory_report EmptyString).
  reflexivity.
Defined.

(** X11: in the text renderer a value of zero gets an empty bar and
    never makes the computation of the bar fail, whatever the maximum of
    its section is (positive, zero, negative, infinite or not a number). *)
Theorem zero_value_empty_bar (time max_time : float) :
  Float.is_zero time = true ->
  bar_len 30 time max_time = Ok 0%Z /\ bar_len 25 time max_time = Ok 0%Z.
Proof.
  intros Z. destruct time as [s| | |]; try discriminate.
  unfold bar_len.
  destruct (Float.pos max_time) eqn:P; [|split; reflexivity].
  destruct max_time as [s'|s'| |s' m e]; try discriminate;
    destruct s'; try discriminate; destruct s; split; vm_compute; reflexivity.
Qed.

Lemma zero_value_empty_bar_witness :
  bar_len 30 (S754_zero false) (S754_infinity false) = Ok 0%Z
  /\ bar_len 25 (S754_zero false) (S754_infinity false) = Ok 0%Z.
Proof.
  apply (zero_value_empty_bar (S754_zero false) (S754_infinity false)).
  reflexivity.
Defined.

(** ** Input without data, rendered *)




(** * Properties of the entry point *)















(** * Two test cases in a whole report *)









